(** * HW Catalog Entry: the catalog store of [src/data_entry_page.py]

    A shallow embedding of the load / duplicate-check / append sequence of the
    page, and the properties of its specification.

    - A Python [str] is a [string]; each [ascii] stands for one character, so
      the model covers text whose code points lie in U+0000..U+00FF.
    - A pandas [DataFrame] is a list of column labels and a list of rows of
      cells; a cell is a string or the missing value [NaN].
    - The file [CSV_FILE] is part of an explicit [World] that every operation
      reads and returns.
    - Python exceptions are values of [exn], threaded by a small error monad;
      [try ... except Exception] is [try_except]. *)

From Stdlib Require Import String Ascii List Bool Arith NArith Lia.
From Stdlib Require Import DecimalString.
Import ListNotations.
Local Open Scope string_scope.
Local Open Scope list_scope.

(* ===================================================================== *)
(** ** Python strings *)
(* ===================================================================== *)

Module PyStr.

(** [str.isspace] on one character (code points below 256): TAB..CR,
    FS..US, SPACE, NEL and NBSP. *)
Definition isspace (c : ascii) : bool :=
  let n := N_of_ascii c in
  ((9 <=? n) && (n <=? 13) || (28 <=? n) && (n <=? 32)
   || (n =? 133) || (n =? 160))%N.

(** [str.lower] on one character: A..Z and the Latin-1 capitals
    U+00C0..U+00DE (the multiplication sign U+00D7 apart). *)
Definition lower_char (c : ascii) : ascii :=
  let n := N_of_ascii c in
  if ((65 <=? n) && (n <=? 90)
      || (192 <=? n) && (n <=? 222) && negb (n =? 215))%N
  then ascii_of_N (n + 32) else c.

Fixpoint lower (s : string) : string :=
  match s with
  | EmptyString => EmptyString
  | String c s' => String (lower_char c) (lower s')
  end.

Fixpoint lstrip (s : string) : string :=
  match s with
  | EmptyString => EmptyString
  | String c s' => if isspace c then lstrip s' else s
  end.

Fixpoint rstrip (s : string) : string :=
  match s with
  | EmptyString => EmptyString
  | String c s' =>
      match rstrip s' with
      | EmptyString => if isspace c then EmptyString else String c EmptyString
      | r => String c r
      end
  end.

(** [s.strip()] *)
Definition strip (s : string) : string := rstrip (lstrip s).

(** Truthiness of a string: [not v] is [negb (truthy v)]. *)
Definition truthy (s : string) : bool :=
  match s with EmptyString => false | String _ _ => true end.

(** [sep.join(xs)] *)
Fixpoint join (sep : string) (xs : list string) : string :=
  match xs with
  | [] => EmptyString
  | [x] => x
  | x :: rest => x ++ sep ++ join sep rest
  end.

(** [x in xs] for a list of strings. *)
Definition mem (x : string) (xs : list string) : bool :=
  existsb (String.eqb x) xs.

End PyStr.

Import PyStr.

(* ===================================================================== *)
(** ** Exceptions *)
(* ===================================================================== *)

Inductive exn : Type :=
| KeyError (key : string)
| FileNotFoundError
| ParserError
| OSError (msg : string).

(** [str(e)] as it appears in an f-string. *)
Definition exn_str (e : exn) : string :=
  match e with
  | KeyError k => "'" ++ k ++ "'"
  | FileNotFoundError => "No such file or directory"
  | ParserError => "Error tokenizing data"
  | OSError msg => msg
  end.

Inductive result (A : Type) : Type :=
| Ok (a : A)
| Raise (e : exn).
Arguments Ok {A} a.
Arguments Raise {A} e.

Definition bind {A B} (m : result A) (k : A -> result B) : result B :=
  match m with
  | Ok a => k a
  | Raise e => Raise e
  end.

Notation "x <- m ;; k" := (bind m (fun x => k))
  (at level 61, m at next level, right associativity).

(** [try: body  except Exception: handler] *)
Definition try_except {A} (body : result A) (handler : exn -> A) : A :=
  match body with
  | Ok a => a
  | Raise e => handler e
  end.

(** Monadic map, left to right: the first exception wins. *)
Fixpoint mapM {A B} (f : A -> result B) (xs : list A) : result (list B) :=
  match xs with
  | [] => Ok []
  | x :: xs' => y <- f x ;; ys <- mapM f xs' ;; Ok (y :: ys)
  end.

(* ===================================================================== *)
(** ** pandas: cells, frames, series *)
(* ===================================================================== *)

Inductive cell : Type :=
| NaN
| Str (s : string).

Record DataFrame : Type := mkDataFrame {
  columns : list string;
  rows : list (list cell)
}.

Module pd.

(** [pd.DataFrame(columns=cols)]: the labels and no row. *)
Definition empty_frame (cols : list string) : DataFrame :=
  mkDataFrame cols [].

(** [df.empty]: some axis has length 0. *)
Definition empty (df : DataFrame) : bool :=
  match columns df, rows df with
  | [], _ => true
  | _, [] => true
  | _, _ => false
  end.

(** [len(df)] *)
Definition len (df : DataFrame) : nat := length (rows df).

(** Position of the first label equal to [c]. *)
Fixpoint index_of (c : string) (cols : list string) : option nat :=
  match cols with
  | [] => None
  | c' :: rest =>
      if String.eqb c c' then Some 0 else option_map S (index_of c rest)
  end.

(** [df.fillna(v)] *)
Definition fillna_cell (v : string) (x : cell) : cell :=
  match x with NaN => Str v | Str s => Str s end.

Definition fillna (v : string) (df : DataFrame) : DataFrame :=
  mkDataFrame (columns df) (map (map (fillna_cell v)) (rows df)).

(** [df[col] = v] for a label that is not yet a column: a new last column
    holding [v] in every row. *)
Definition setitem_new (df : DataFrame) (col v : string) : DataFrame :=
  mkDataFrame (columns df ++ [col]) (map (fun r => r ++ [Str v]) (rows df)).

(** [df[col]]: the column as a series, [KeyError] when there is none. *)
Definition getitem (df : DataFrame) (col : string) : result (list cell) :=
  match index_of col (columns df) with
  | None => Raise (KeyError col)
  | Some i => Ok (map (fun r => nth i r NaN) (rows df))
  end.

(** [df[cols]]: the listed columns in the listed order, [KeyError] when one
    of them is not a column. *)
Definition locate (df : DataFrame) (col : string) : result nat :=
  match index_of col (columns df) with
  | None => Raise (KeyError col)
  | Some i => Ok i
  end.

Definition getitems (df : DataFrame) (cols : list string) : result DataFrame :=
  idx <- mapM (locate df) cols ;;
  Ok (mkDataFrame cols (map (fun r => map (fun i => nth i r NaN) idx) (rows df))).

(** One row laid out again under the labels [new]: a label that [old] lacks
    gets [NaN]. *)
Definition reindex_row (old new : list string) (r : list cell) : list cell :=
  map (fun c => match index_of c old with
                | Some i => nth i r NaN
                | None => NaN
                end) new.

(** [pd.concat([a, b], ignore_index=True)]: the labels of [a], then those of
    [b] that [a] lacks; the rows of [a], then the rows of [b]. *)
Definition concat (a b : DataFrame) : DataFrame :=
  let cols := columns a ++ filter (fun c => negb (mem c (columns a))) (columns b) in
  mkDataFrame cols
    (map (reindex_row (columns a) cols) (rows a)
     ++ map (reindex_row (columns b) cols) (rows b)).

(** [pd.DataFrame([row])] for a dict given by its items in insertion order. *)
Definition of_record (row : list (string * string)) : DataFrame :=
  mkDataFrame (map fst row) [map (fun kv => Str (snd kv)) row].

(** [series.astype(str)]: the missing value prints as [nan] (pandas 2; a
    later pandas may keep it missing). [load_catalog] fills every missing
    value before this is ever called, so the statements below are made on
    frames of strings, where the two agree. *)
Definition astype_str (x : cell) : string :=
  match x with NaN => "nan" | Str s => s end.

(** [a & b] on boolean series of one index. *)
Fixpoint band (a b : list bool) : list bool :=
  match a, b with
  | x :: a', y :: b' => (x && y) :: band a' b'
  | _, _ => []
  end.

(** [mask.any()] *)
Definition any (mask : list bool) : bool := existsb (fun b => b) mask.

(** The markers [read_csv] takes for a missing value when [na_values] and
    [keep_default_na] are left at their defaults. *)
Definition STR_NA_VALUES : list string :=
  [ ""; "#N/A"; "#N/A N/A"; "#NA"; "-1.#IND"; "-1.#QNAN"; "-NaN"; "-nan";
    "1.#IND"; "1.#QNAN"; "<NA>"; "N/A"; "NA"; "NULL"; "NaN"; "None";
    "n/a"; "nan"; "null" ].

Definition is_na (s : string) : bool := mem s STR_NA_VALUES.

(** A text field read with [dtype=str]. *)
Definition parse_field (s : string) : cell :=
  if is_na s then NaN else Str s.

(** A cell written by [to_csv]: [na_rep] is the empty string. *)
Definition render_cell (x : cell) : string :=
  match x with NaN => "" | Str s => s end.

End pd.

(* ===================================================================== *)
(** ** The file system *)
(* ===================================================================== *)

(** What [CSV_FILE] holds: text that [read_csv] rejects, or a header line and
    records, given as the text fields the tokenizer assigns to the header's
    columns (quoting undone, record by record). *)
Inductive contents : Type :=
| Garbled
| Table (header : list string) (records : list (list string)).

(** [CSV_FILE] is [None] when the file does not exist. [write_fault] is
    [Some msg] when the operating system refuses to open the file for
    writing (permissions, a read-only disk): [to_csv] raises [OSError(msg)]
    before it has written anything, so the file is as it was. A write that
    breaks off half way, leaving a truncated file, is not modelled. *)
Record World : Type := mkWorld {
  CSV_FILE : option contents;
  write_fault : option string
}.

(** [CSV_FILE.exists()] *)
Definition exists_ (w : World) : bool :=
  match CSV_FILE w with None => false | Some _ => true end.

(** [pd.read_csv(CSV_FILE, dtype=str)]. The records are taken as the
    tokenizer lays them out under the header, one field for each column
    ([rectangular]): how pandas fills a short record or takes a leading
    field as the label of the row comes before that, and is not part of
    this definition. *)
Definition read_csv (w : World) : result DataFrame :=
  match CSV_FILE w with
  | None => Raise FileNotFoundError
  | Some Garbled => Raise ParserError
  | Some (Table header records) =>
      Ok (mkDataFrame header (map (map pd.parse_field) records))
  end.

(** [df.to_csv(CSV_FILE, index=False)]: the whole file is replaced. The
    writer quotes a field that holds a comma, a quote or a character of its
    line terminator, and [read_csv] undoes that, so a text without control
    characters is read back, token for token, as it was written; what
    [read_csv] then makes of the token is [pd.parse_field]. That is the case
    this definition describes. A field with a bare carriage return is not
    quoted where the line terminator is a line feed, and [read_csv] then
    breaks the record in two: the outcome depends on the platform, and the
    statements below about what is read after a write are made for texts
    without control characters ([plain]). *)
Definition to_csv (df : DataFrame) (w : World) : result World :=
  match write_fault w with
  | Some msg => Raise (OSError msg)
  | None =>
      Ok (mkWorld (Some (Table (columns df)
                               (map (map pd.render_cell) (rows df))))
                  (write_fault w))
  end.

(* ===================================================================== *)
(** ** The catalog store *)
(* ===================================================================== *)

Definition COLUMNS : list string :=
  [ "Toy #"; "Collector #"; "Name"; "Series"; "Series #"; "Year"; "Rarity";
    "Exclusive Description"; "Color"; "Tampo"; "Base Color"; "Window Color";
    "Interior Color"; "Wheel Type" ].

(** The loop [for col in COLUMNS: if col not in df.columns: df[col] = ""]. *)
Definition ensure_column (df : DataFrame) (col : string) : DataFrame :=
  if mem col (columns df) then df else pd.setitem_new df col "".

Definition load_catalog (w : World) : DataFrame :=
  if exists_ w then
    try_except
      (df <- read_csv w ;;
       let df := pd.fillna "" df in
       let df := fold_left ensure_column COLUMNS df in
       pd.getitems df COLUMNS)
      (fun _ => pd.empty_frame COLUMNS)
  else pd.empty_frame COLUMNS.

Definition save_row (row : list (string * string)) (w : World) : result World :=
  let df := load_catalog w in
  let df := pd.concat df (pd.of_record row) in
  to_csv df w.

(** [df[col].astype(str).str.strip().str.lower() == v] *)
Definition column_matches (df : DataFrame) (col v : string)
  : result (list bool) :=
  ser <- pd.getitem df col ;;
  Ok (map (fun x => String.eqb (lower (strip (pd.astype_str x))) v) ser).

Definition duplicate_exists (df : DataFrame)
    (toy_no name series rarity year : string) : bool :=
  if pd.empty df then false
  else
    let t := lower (strip toy_no) in
    let n := lower (strip name) in
    let s := lower (strip series) in
    let r := lower (strip rarity) in
    let y := lower (strip year) in
    try_except
      (m1 <- column_matches df "Toy #" t ;;
       m2 <- column_matches df "Name" n ;;
       m3 <- column_matches df "Series" s ;;
       m4 <- column_matches df "Rarity" r ;;
       m5 <- column_matches df "Year" y ;;
       let mask := pd.band (pd.band (pd.band (pd.band m1 m2) m3) m4) m5 in
       Ok (pd.any mask))
      (fun _ => false).

Definition rarity_options : list string :=
  [ "TH"; "STH"; "Normal"; "New Model"; "New for Year"; "New in Mainline";
    "Exclusive" ].

(* ===================================================================== *)
(** ** The entry form and its submit handler *)
(* ===================================================================== *)

(** The values of the widgets when the form is submitted. Every widget is a
    text input, save [rarity]: a selectbox over [rarity_options], whose
    value is one of them. *)
Record Form : Type := mkForm {
  toy_no : string;
  name : string;
  series : string;
  rarity : string;
  collector_no : string;
  series_no : string;
  year : string;
  color : string;
  tampo : string;
  base_color : string;
  window_color : string;
  interior_color : string;
  wheel_type : string;
  exclusive_desc : string
}.

(** What the page shows in answer to a submission. *)
Inductive feedback : Type :=
| st_error (msg : string)
| st_warning (msg : string)
| st_success (msg : string).

(** The dict [required] of the handler, as its items. *)
Definition required (f : Form) : list (string * string) :=
  [ ("Toy #", strip (toy_no f));
    ("Name", strip (name f));
    ("Series", strip (series f));
    ("Rarity", strip (rarity f)) ].

(** [[k for k, v in required.items() if not v]] *)
Definition missing (f : Form) : list string :=
  map fst (filter (fun kv => negb (truthy (snd kv))) (required f)).

(** The dict [row] of the handler, as its items. *)
Definition entry_row (f : Form) : list (string * string) :=
  [ ("Toy #", strip (toy_no f));
    ("Collector #", strip (collector_no f));
    ("Name", strip (name f));
    ("Series", strip (series f));
    ("Series #", strip (series_no f));
    ("Year", strip (year f));
    ("Rarity", strip (rarity f));
    ("Exclusive Description", strip (exclusive_desc f));
    ("Color", strip (color f));
    ("Tampo", strip (tampo f));
    ("Base Color", strip (base_color f));
    ("Window Color", strip (window_color f));
    ("Interior Color", strip (interior_color f));
    ("Wheel Type", strip (wheel_type f)) ].

Definition msg_exclusive : string :=
  "Exclusive Description is required when Rarity is 'Exclusive'.".

Definition msg_duplicate : string :=
  "This entry already exists based on Toy #, Name, Series, Rarity, and Year. No new row added.".

Definition msg_saved : string := "Entry saved to CSV.".

(** The body of [if submitted:], lines 114-150 and 175-176: the first
    notice that the handler shows and the world that it leaves. What the
    handler does after [st.success] (lines 151-174, the reset of the
    inputs) does not touch the file; it is the subject of [submitted]
    below, which gives every notice of the run. *)
Definition on_submit (f : Form) (w : World) : feedback * World :=
  match missing f with
  | _ :: _ =>
      (st_error ("Missing required fields: " ++ join ", " (missing f)), w)
  | [] =>
      if String.eqb (rarity f) "Exclusive"
         && negb (truthy (strip (exclusive_desc f)))
      then (st_error msg_exclusive, w)
      else
        let catalog := load_catalog w in
        if duplicate_exists catalog
             (toy_no f) (name f) (series f) (rarity f) (year f)
        then (st_warning msg_duplicate, w)
        else
          match save_row (entry_row f) w with
          | Ok w' => (st_success msg_saved, w')
          | Raise e => (st_error ("Failed to save entry: " ++ exn_str e), w)
          end
  end.

(** Writing a sequence of rows, one [save_row] after the other. *)
Fixpoint save_rows (rs : list (list (string * string))) (w : World)
  : result World :=
  match rs with
  | [] => Ok w
  | r :: rs' => w' <- save_row r w ;; save_rows rs' w'
  end.

(* ===================================================================== *)
(** ** Vocabulary of the statements *)
(* ===================================================================== *)

(** Every record of the file has one text field per header column. *)
Definition rectangular (h : list string) (rs : list (list string)) : bool :=
  forallb (fun r => Nat.eqb (length r) (length h)) rs.

(** The file is absent, rejected by [read_csv], or a rectangular table. *)
Definition tabular (w : World) : bool :=
  match CSV_FILE w with
  | Some (Table h rs) => rectangular h rs
  | _ => true
  end.

(** The cell that loading gives, under the declared label [c], to the record
    [rec] of a file whose header is [h]. *)
Definition loaded_cell (h rec : list string) (c : string) : cell :=
  match pd.index_of c h with
  | Some i => pd.fillna_cell "" (pd.parse_field (nth i rec ""))
  | None => Str ""
  end.

Definition is_str (x : cell) : bool :=
  match x with NaN => false | Str _ => true end.

(** The cell of row [k] under the label [c], when the frame has both. *)
Definition cell_at (df : DataFrame) (k : nat) (c : string) : option cell :=
  match nth_error (rows df) k, pd.index_of c (columns df) with
  | Some r, Some i => nth_error r i
  | _, _ => None
  end.

(** Every row has one cell per column and every cell is a string. *)
Definition frame_of_strings (df : DataFrame) : bool :=
  forallb (fun r => Nat.eqb (length r) (length (columns df))
                    && forallb is_str r) (rows df).

(** The row [r] of [df] has, under the label [c], a string equal to [v]
    once both are trimmed and lowercased. *)
Definition field_matches (df : DataFrame) (r : list cell) (c v : string)
  : Prop :=
  exists i x, pd.index_of c (columns df) = Some i
              /\ nth_error r i = Some (Str x)
              /\ lower (strip x) = lower (strip v).

(** [row.get(c)] on the items of a dict. *)
Fixpoint dict_get (row : list (string * string)) (c : string)
  : option string :=
  match row with
  | [] => None
  | (k, v) :: rest => if String.eqb c k then Some v else dict_get rest c
  end.

Fixpoint distinct (ks : list string) : bool :=
  match ks with
  | [] => true
  | k :: rest => negb (mem k rest) && distinct rest
  end.

(** The items of a dict whose keys are declared column labels: the keys are
    distinct, as in any dict, and each is one of [COLUMNS]. *)
Definition catalog_dict (row : list (string * string)) : bool :=
  distinct (map fst row) && forallb (fun k => mem k COLUMNS) (map fst row).

(** What a value written to the file reads back as: the markers of a missing
    value come back empty. *)
Definition read_back (v : string) : string :=
  if pd.is_na v then "" else v.

(** The row that [load_catalog] returns for a dict that was saved. *)
Definition stored_row (row : list (string * string)) : list cell :=
  map (fun c => Str (match dict_get row c with
                     | Some v => read_back v
                     | None => ""
                     end)) COLUMNS.

(** A cell as [load_catalog] makes them: a string that is not a marker of a
    missing value, the empty string apart. *)
Definition clean_cell (x : cell) : bool :=
  match x with
  | NaN => false
  | Str s => String.eqb s "" || negb (pd.is_na s)
  end.

Definition clean_rows (rs : list (list cell)) : bool :=
  forallb (fun r => Nat.eqb (length r) 14 && forallb clean_cell r) rs.

(** A typed value that the file gives back as typed once it is trimmed:
    empty, or not one of the markers of a missing value. *)
Definition survives (v : string) : bool :=
  String.eqb (strip v) "" || negb (pd.is_na (strip v)).

Definition composite_survives (f : Form) : bool :=
  survives (toy_no f) && survives (name f) && survives (series f)
  && survives (rarity f) && survives (year f).

(** The scenario of the specification, and the same entry with a year that
    the user does not know. *)
Definition no_file : World := mkWorld None None.

Definition camaro : Form :=
  mkForm "GHC39" "'67 Camaro" "Mainline" "STH" "" "" "2023"
         "" "" "" "" "" "" "".

Definition camaro_year_unknown : Form :=
  mkForm "GHC39" "'67 Camaro" "Mainline" "STH" "" "" "N/A"
         "" "" "" "" "" "" "".

(** The file after the scenario's entry was saved. *)
Definition camaro_saved : World := snd (on_submit camaro no_file).

(** A disk that refuses the write. *)
Definition read_only : World := mkWorld None (Some "Permission denied").

(** Submissions that validation stops. *)
Definition no_toy_no : Form :=
  mkForm "" "X" "Y" "Normal" "" "" "" "" "" "" "" "" "" "".

Definition exclusive_undescribed : Form :=
  mkForm "HW01" "X" "Y" "Exclusive" "" "" "" "" "" "" "" "" "" "  ".

(** A file made elsewhere: two declared columns out of order, one column
    that is not declared, and a field that reads as a missing value. *)
Definition foreign_file : World :=
  mkWorld (Some (Table ["Name"; "Toy #"; "Owner"]
                       [["Bone Shaker"; "NA"; "Sam"]])) None.

(** A catalog of one row. *)
Definition one_row : DataFrame :=
  mkDataFrame COLUMNS
    [[Str "HW01"; Str ""; Str "Twin Mill"; Str "Mainline"; Str "";
      Str "2021"; Str "TH"; Str ""; Str ""; Str ""; Str ""; Str ""; Str "";
      Str ""]].

(* ===================================================================== *)
(** ** The preview of the current catalog *)
(* ===================================================================== *)

(** [df.tail(n)]: the last [n] rows. The labels that pandas keeps with
    the rows are not part of a frame here, so what is said of the preview is
    said of its rows and their order. *)
Definition tail (n : nat) (df : DataFrame) : DataFrame :=
  mkDataFrame (columns df) (skipn (pd.len df - n) (rows df)).

(** [df.iloc[::-1]] *)
Definition iloc_reversed (df : DataFrame) : DataFrame :=
  mkDataFrame (columns df) (rev (rows df)).

(** [str(n)] for a length. *)
Definition str_of_nat (n : nat) : string :=
  NilEmpty.string_of_uint (Nat.to_uint n).

(** What the section "Current Catalog" shows under its heading: a notice,
    or a caption and a table. *)
Inductive shown : Type :=
| st_info (msg : string)
| st_dataframe (caption : string) (latest : DataFrame).

Definition current_catalog (w : World) : shown :=
  let catalog_df := load_catalog w in
  if pd.empty catalog_df then st_info "No entries yet."
  else
    let total := pd.len catalog_df in
    let latest := iloc_reversed (tail 10 catalog_df) in
    st_dataframe
      ("Showing latest " ++ str_of_nat (pd.len latest)
       ++ " of " ++ str_of_nat total ++ " entries")
      latest.

(* ===================================================================== *)
(** ** The whole handler: every notice of a run *)
(* ===================================================================== *)

(** The keys of the widgets that the form has made when the handler runs
    (lines 91-110). *)
Definition widget_keys : list string :=
  [ "toy_no"; "name"; "series"; "rarity"; "collector_no"; "series_no";
    "year"; "color"; "tampo"; "base_color"; "window_color";
    "interior_color"; "wheel_type"; "exclusive_desc" ].

(** The keys that the handler blanks after [st.success], in its order
    (lines 152-166). *)
Definition reset_keys : list string :=
  [ "toy_no"; "collector_no"; "name"; "series"; "series_no"; "year";
    "color"; "tampo"; "base_color"; "window_color"; "interior_color";
    "wheel_type"; "exclusive_desc" ].

Section Session.

(** [refusal k] is the text of the [StreamlitAPIException] that Streamlit
    raises when [st.session_state[k]] is assigned in a run that has already
    made the widget with key [k]. *)
Variable refusal : string -> string.

(** [st.session_state[k] = v]: the text of the exception raised, [None]
    when the assignment goes through. *)
Definition session_setitem (k : string) : option string :=
  if mem k widget_keys then Some (refusal k) else None.

(** [for k in [...]: st.session_state[k] = ""]: the first exception. *)
Fixpoint blank_keys (ks : list string) : option string :=
  match ks with
  | [] => None
  | k :: ks' =>
      match session_setitem k with
      | Some e => Some e
      | None => blank_keys ks'
      end
  end.

(** Lines 151-169: the loop, then [st.session_state["rarity"] = "Normal"]. *)
Definition reset_inputs : option string :=
  match blank_keys reset_keys with
  | Some e => Some e
  | None => session_setitem "rarity"
  end.

(** The body of [if submitted:], all of it: the notices in the order the
    handler shows them, and the world it leaves. The exception of the reset
    is raised inside the [try] of line 148, so [except Exception as e]
    reports it as a failure to save, after the success notice and with the
    entry in the file. Were the reset to go through, [st.rerun()] would
    run the page again. *)
Definition submitted (f : Form) (w : World) : list feedback * World :=
  match missing f with
  | _ :: _ =>
      ([st_error ("Missing required fields: " ++ join ", " (missing f))], w)
  | [] =>
      if String.eqb (rarity f) "Exclusive"
         && negb (truthy (strip (exclusive_desc f)))
      then ([st_error msg_exclusive], w)
      else
        let catalog := load_catalog w in
        if duplicate_exists catalog
             (toy_no f) (name f) (series f) (rarity f) (year f)
        then ([st_warning msg_duplicate], w)
        else
          match save_row (entry_row f) w with
          | Raise e =>
              ([st_error ("Failed to save entry: " ++ exn_str e)], w)
          | Ok w' =>
              match reset_inputs with
              | Some e =>
                  ([st_success msg_saved;
                    st_error ("Failed to save entry: " ++ e)], w')
              | None => ([st_success msg_saved], w')
              end
          end
  end.

End Session.

(** The text of the refusal in the Streamlit releases that have
    [st.rerun]. *)
Definition refusal_text (k : string) : string :=
  "`st.session_state." ++ k
  ++ "` cannot be modified after the widget with key `" ++ k
  ++ "` is instantiated.".

(* ===================================================================== *)
(** ** Plain text *)
(* ===================================================================== *)

(** A text without control characters: every character has code 32 or
    more, so no carriage return, line feed, tab or NUL. A single-line text
    input gives such a text. *)
Fixpoint plain (s : string) : bool :=
  match s with
  | EmptyString => true
  | String c s' => (32 <=? N_of_ascii c)%N && plain s'
  end.

(** Every field of the file is plain. *)
Definition plain_file (w : World) : bool :=
  match CSV_FILE w with
  | Some (Table h rs) => forallb (forallb plain) rs
  | _ => true
  end.

(** Every value of the dict is plain. *)
Definition plain_dict (row : list (string * string)) : bool :=
  forallb (fun kv => plain (snd kv)) row.

(** The 14 values of the form, trimmed, are plain. *)
Definition plain_form (f : Form) : bool := plain_dict (entry_row f).

(** Every cell of the rows is written as a plain text. *)
Definition plain_rows (rs : list (list cell)) : bool :=
  forallb (forallb (fun x => plain (pd.render_cell x))) rs.



(** The text that a record of a file with the declared header holds under
    the label [c]. *)
Definition field_of (rec : list string) (c : string) : string :=
  match pd.index_of c COLUMNS with
  | Some i => nth i rec ""
  | None => ""
  end.

(** The catalog of one row that [load_catalog] gives for a saved dict. *)
Definition stored_frame (row : list (string * string)) : DataFrame :=
  mkDataFrame COLUMNS [stored_row row].

(** Twelve entries, to fill the preview. *)
Definition numbered (k : nat) : list (string * string) :=
  [ ("Toy #", ("HW" ++ str_of_nat k)%string); ("Name", "Car");
    ("Series", "Mainline");
    ("Rarity", "Normal") ].

Definition twelve_saved : World :=
  match save_rows (map numbered (seq 0 12)) no_file with
  | Ok w => w
  | Raise _ => no_file
  end.

(** A frame that lacks the Year column. *)
Definition no_year : DataFrame :=
  mkDataFrame ["Toy #"; "Name"; "Series"; "Rarity"]
              [[Str "HW01"; Str "Twin Mill"; Str "Mainline"; Str "TH"]].

(** A file that [read_csv] rejects. *)
Definition garbled_file : World := mkWorld (Some Garbled) None.

(** The scenario's entry typed with white space around the values. *)
Definition camaro_padded : Form :=
  mkForm "  GHC39" "'67 Camaro  " " Mainline " "STH" " 12 " "" "2023 "
         " red" "" "" "" "" "" "".

Definition camaro_padded_saved : World := snd (on_submit camaro_padded no_file).

(* ===================================================================== *)
(** ** Facts about strings *)
(* ===================================================================== *)

Section StringFacts.

Lemma truthy_false (s : string) : truthy s = false <-> s = "".
Proof. destruct s; simpl; split; intro H; congruence. Qed.

Lemma lstrip_head (s : string) :
  lstrip s = "" \/ exists c t, lstrip s = String c t /\ isspace c = false.
Proof.
  induction s as [|c s IH]; simpl.
  - now left.
  - destruct (isspace c) eqn:E; [exact IH|].
    right. now exists c, s.
Qed.

Lemma rstrip_head (c : ascii) (t : string) :
  isspace c = false -> exists t', rstrip (String c t) = String c t'.
Proof.
  intros E. simpl. destruct (rstrip t).
  - rewrite E. now exists "".
  - eexists. reflexivity.
Qed.

Lemma rstrip_idem (s : string) : rstrip (rstrip s) = rstrip s.
Proof.
  induction s as [|c s IH]; simpl; [reflexivity|].
  destruct (rstrip s) as [|d r] eqn:E.
  - destruct (isspace c) eqn:Ec; simpl; [reflexivity|].
    now rewrite Ec.
  - change (rstrip (String c (String d r)))
      with (match rstrip (String d r) with
            | "" => if isspace c then "" else String c ""
            | String a b => String c (String a b)
            end).
    now rewrite IH.
Qed.

Lemma strip_idem (s : string) : strip (strip s) = strip s.
Proof.
  unfold strip. destruct (lstrip_head s) as [E | (c & t & E & Hc)].
  - rewrite E. reflexivity.
  - rewrite E. destruct (rstrip_head c t Hc) as [t' Et].
    assert (L : lstrip (rstrip (String c t)) = rstrip (String c t)).
    { rewrite Et. simpl. now rewrite Hc. }
    rewrite L. apply rstrip_idem.
Qed.

Lemma mem_In (x : string) (xs : list string) : mem x xs = true <-> In x xs.
Proof.
  unfold mem. rewrite existsb_exists. split.
  - intros (y & Hy & E). apply String.eqb_eq in E. now subst.
  - intros H. exists x. split; [exact H | apply String.eqb_refl].
Qed.

Lemma mem_not_In (x : string) (xs : list string) :
  mem x xs = false <-> ~ In x xs.
Proof.
  rewrite <- mem_In. destruct (mem x xs); split; congruence.
Qed.

End StringFacts.

(* ===================================================================== *)
(** ** Validation *)
(* ===================================================================== *)

Section Validation.

Variable f : Form.
Variable w : World.

(** C4. When Toy #, Name, Series or Rarity is empty after trimming, the
    handler answers with the error "Missing required fields: ..." whose list
    names exactly the required fields that are empty, each once, and the
    world, so the file, is left as it was. *)
Theorem missing_required_reported :
  strip (toy_no f) = "" \/ strip (name f) = "" \/
  strip (series f) = "" \/ strip (rarity f) = "" ->
  on_submit f w
    = (st_error ("Missing required fields: " ++ join ", " (missing f)), w)
  /\ NoDup (missing f)
  /\ forall k, In k (missing f) <->
       (k = "Toy #" /\ strip (toy_no f) = "") \/
       (k = "Name" /\ strip (name f) = "") \/
       (k = "Series" /\ strip (series f) = "") \/
       (k = "Rarity" /\ strip (rarity f) = "").
Proof.
  unfold on_submit, missing, required.
  destruct (strip (toy_no f)), (strip (name f)),
           (strip (series f)), (strip (rarity f)); simpl; intros H;
    (split; [reflexivity || (exfalso; intuition discriminate) |]);
    (split;
     [ repeat constructor; simpl; intuition discriminate
     | intros k; intuition (subst; try discriminate; auto) ]).
Qed.

(** C5. With the required fields filled in, Rarity "Exclusive" and an
    Exclusive Description that is empty after trimming, the handler answers
    with the exclusive-description error whatever the other fields hold, and
    the world is left as it was. *)
Theorem exclusive_needs_description :
  strip (toy_no f) <> "" -> strip (name f) <> "" ->
  strip (series f) <> "" -> strip (rarity f) <> "" ->
  rarity f = "Exclusive" ->
  strip (exclusive_desc f) = "" ->
  on_submit f w = (st_error msg_exclusive, w).
Proof.
  intros H1 H2 H3 H4 HR HE. unfold on_submit, missing, required.
  destruct (strip (toy_no f)); [congruence|].
  destruct (strip (name f)); [congruence|].
  destruct (strip (series f)); [congruence|].
  destruct (strip (rarity f)); [congruence|].
  simpl. rewrite HR, HE. reflexivity.
Qed.

(** C9. When a submission passes validation and the duplicate check and the
    write of the file fails with message [e], the handler answers with the
    error "Failed to save entry: e", not with the success notice, and the
    file is as it was. *)
Theorem write_failure_reported (e : string) :
  missing f = [] ->
  (rarity f = "Exclusive" -> strip (exclusive_desc f) <> "") ->
  duplicate_exists (load_catalog w)
    (toy_no f) (name f) (series f) (rarity f) (year f) = false ->
  write_fault w = Some e ->
  on_submit f w = (st_error ("Failed to save entry: " ++ e), w)
  /\ fst (on_submit f w) <> st_success msg_saved
  /\ load_catalog (snd (on_submit f w)) = load_catalog w.
Proof.
  intros HM HX HD HF.
  assert (E : on_submit f w = (st_error ("Failed to save entry: " ++ e), w)).
  { unfold on_submit. rewrite HM, HD.
    replace (String.eqb (rarity f) "Exclusive"
             && negb (truthy (strip (exclusive_desc f)))) with false.
    - unfold save_row, to_csv. rewrite HF. reflexivity.
    - symmetry. apply andb_false_iff.
      destruct (String.eqb_spec (rarity f) "Exclusive") as [R|R];
        [right | now left].
      apply negb_false_iff.
      destruct (strip (exclusive_desc f)) eqn:X; [|reflexivity].
      now elim (HX R). }
  rewrite E. simpl. repeat split. discriminate.
Qed.

End Validation.

(* ===================================================================== *)
(** ** Loading *)
(* ===================================================================== *)

Lemma load_catalog_columns (w : World) : columns (load_catalog w) = COLUMNS.
Proof.
  unfold load_catalog, exists_, read_csv.
  destruct (CSV_FILE w) as [[|h rs]|]; try reflexivity.
  unfold bind, pd.getitems, try_except.
  destruct (mapM _ COLUMNS); reflexivity.
Qed.


(** *** Column positions *)

Section Positions.

Import pd.

Lemma index_of_Some (c : string) (cols : list string) (i : nat) :
  index_of c cols = Some i -> i < length cols /\ nth_error cols i = Some c.
Proof.
  revert i. induction cols as [|c' cols IH]; simpl; intros i H; [discriminate|].
  destruct (String.eqb_spec c c') as [->|N].
  - inversion H. subst. split; [lia | reflexivity].
  - destruct (index_of c cols) as [j|]; [|discriminate].
    inversion H. subst. destruct (IH j eq_refl). split; [lia | assumption].
Qed.

Lemma index_of_None (c : string) (cols : list string) :
  index_of c cols = None <-> ~ In c cols.
Proof.
  induction cols as [|c' cols IH]; simpl; [tauto|].
  destruct (String.eqb_spec c c') as [->|N].
  - split; [discriminate | intros H; elim H; now left].
  - destruct (index_of c cols) as [j|]; simpl.
    + split; [discriminate|]. intros H.
      assert (K : ~ In c cols) by (intros I; apply H; now right).
      discriminate (proj2 IH K).
    + split; [|reflexivity]. intros _ [E|I]; [now elim N|].
      now apply (proj1 IH eq_refl).
Qed.

Lemma index_of_In (c : string) (cols : list string) :
  In c cols -> exists i, index_of c cols = Some i.
Proof.
  intros H. destruct (index_of c cols) as [i|] eqn:E; [now exists i|].
  now apply index_of_None in E.
Qed.

Lemma index_of_app (c : string) (a b : list string) :
  index_of c (a ++ b)
  = match index_of c a with
    | Some i => Some i
    | None => option_map (Nat.add (length a)) (index_of c b)
    end.
Proof.
  induction a as [|c' a IH]; simpl.
  - destruct (index_of c b); reflexivity.
  - destruct (String.eqb c c'); [reflexivity|].
    rewrite IH. destruct (index_of c a); simpl; [reflexivity|].
    destruct (index_of c b); reflexivity.
Qed.

(** [df[cols]] succeeds as soon as every label is a column. *)
Lemma getitems_present (df : DataFrame) (cols : list string) :
  (forall c, In c cols -> In c (columns df)) ->
  getitems df cols
  = Ok (mkDataFrame cols
          (map (fun r => map (fun c => match index_of c (columns df) with
                                       | Some i => nth i r NaN
                                       | None => NaN
                                       end) cols) (rows df))).
Proof.
  intros H. unfold getitems.
  assert (M : mapM (locate df) cols
              = Ok (map (fun c => match index_of c (columns df) with
                                  | Some i => i | None => 0 end) cols)).
  { induction cols as [|c cols IH]; simpl; [reflexivity|].
    unfold locate at 1.
    destruct (index_of_In c (columns df)) as [i E]; [apply H; now left|].
    rewrite E. simpl. rewrite IH; [reflexivity|].
    intros c' I. apply H. now right. }
  rewrite M. simpl. f_equal. f_equal.
  apply map_ext. intros r. rewrite map_map.
  apply map_ext_in. intros c I.
  destruct (index_of_In c (columns df) (H c I)) as [i E]. now rewrite E.
Qed.

End Positions.

(** *** The loaded table *)

Section Loaded.

Import pd.

(** The backfilling loop only ever adds blank columns on the right, and adds
    every label of [cs] that is not there yet. *)
Lemma ensure_columns_spec (cs : list string) (df : DataFrame) :
  exists extra,
    columns (fold_left ensure_column cs df) = columns df ++ extra
    /\ rows (fold_left ensure_column cs df)
       = map (fun r => r ++ repeat (Str "") (length extra)) (rows df)
    /\ forall c, In c cs -> In c (columns df ++ extra).
Proof.
  revert df. induction cs as [|c cs IH]; intros df; simpl.
  - exists []. rewrite app_nil_r. split; [reflexivity|]. split; [|tauto].
    rewrite <- (map_id (rows df)) at 1. apply map_ext.
    intros r. simpl. now rewrite app_nil_r.
  - destruct (IH (ensure_column df c)) as (extra & Hc & Hr & Hin).
    unfold ensure_column in *. destruct (mem c (columns df)) eqn:M.
    + exists extra. repeat split; try assumption.
      intros c' [<-|I]; [|now apply Hin].
      apply in_or_app. left. now apply mem_In.
    + simpl in *. exists (c :: extra). rewrite <- app_assoc in Hc.
      split; [exact Hc|]. split.
      * rewrite Hr, map_map. apply map_ext. intros r.
        now rewrite <- app_assoc.
      * intros c' [<-|I].
        -- apply in_or_app. right. now left.
        -- specialize (Hin c' I). rewrite <- app_assoc in Hin. exact Hin.
Qed.

Lemma rectangular_Forall (h : list string) (rs : list (list string)) :
  rectangular h rs = true -> Forall (fun r => length r = length h) rs.
Proof.
  unfold rectangular. rewrite forallb_forall, Forall_forall.
  intros H r I. apply Nat.eqb_eq. now apply H.
Qed.

Lemma nth_map_in {A B} (g : A -> B) (l : list A) (i : nat) (d : A) (d' : B) :
  i < length l -> nth i (map g l) d' = g (nth i l d).
Proof.
  intros L. rewrite (nth_indep _ d' (g d)); [apply map_nth|].
  now rewrite length_map.
Qed.

(** What [load_catalog] returns on a file that parses. *)
Lemma load_catalog_table (w : World) (h : list string)
    (rs : list (list string)) :
  CSV_FILE w = Some (Table h rs) ->
  rectangular h rs = true ->
  load_catalog w
  = mkDataFrame COLUMNS (map (fun rec => map (loaded_cell h rec) COLUMNS) rs).
Proof.
  intros HF HR. unfold load_catalog, exists_, read_csv. rewrite HF.
  cbn [bind].
  set (df0 := fillna "" (mkDataFrame h (map (map parse_field) rs))).
  destruct (ensure_columns_spec COLUMNS df0) as (extra & Hc & Hr & Hin).
  rewrite getitems_present by (intros c I; rewrite Hc; now apply Hin).
  cbn [try_except]. f_equal. rewrite Hr, Hc. subst df0. cbn [rows columns fillna].
  rewrite !map_map. apply map_ext_in. intros rec Irec.
  assert (L : length rec = length h).
  { apply rectangular_Forall in HR. rewrite Forall_forall in HR. now apply HR. }
  apply map_ext_in. intros c Ic. unfold loaded_cell.
  rewrite index_of_app. destruct (index_of c h) as [i|] eqn:E.
  - apply index_of_Some in E. destruct E as [Li _].
    rewrite app_nth1 by (rewrite !length_map; lia).
    rewrite (nth_map_in _ _ _ NaN) by (rewrite length_map; lia).
    now rewrite (nth_map_in _ _ _ "") by lia.
  - specialize (Hin c Ic). apply in_app_or in Hin. cbn [columns] in Hin.
    destruct Hin as [I|I]; [now apply index_of_None in E|].
    destruct (index_of_In c extra I) as [j Ej]. rewrite Ej. cbn [option_map].
    apply index_of_Some in Ej. destruct Ej as [Lj _].
    rewrite app_nth2 by (rewrite !length_map; lia).
    rewrite !length_map.
    replace (length h + j - length rec) with j by lia.
    rewrite (nth_indep _ NaN (Str "")) by (now rewrite repeat_length).
    apply nth_repeat.
Qed.

End Loaded.

Section LoadedFrame.

Import pd.

Lemma loaded_cell_is_str (h rec : list string) (c : string) :
  is_str (loaded_cell h rec c) = true.
Proof.
  unfold loaded_cell. destruct (index_of c h); [|reflexivity].
  destruct (parse_field _); reflexivity.
Qed.

Lemma cell_at_loaded (h : list string) (rs : list (list string))
    (k : nat) (rec : list string) (c : string) :
  nth_error rs k = Some rec ->
  In c COLUMNS ->
  cell_at (mkDataFrame COLUMNS
             (map (fun rec => map (loaded_cell h rec) COLUMNS) rs)) k c
  = Some (loaded_cell h rec c).
Proof.
  intros Hk Ic. unfold cell_at. cbn [rows columns].
  rewrite nth_error_map, Hk. cbn [option_map].
  destruct (index_of_In c COLUMNS Ic) as [j Ej]. rewrite Ej.
  apply index_of_Some in Ej. destruct Ej as [_ Ej].
  now rewrite nth_error_map, Ej.
Qed.

(** C7. When the file parses, the loaded table has exactly the 14 declared
    columns in the declared order and one row per record; under a declared
    label that the file lacks every row holds the empty string, under a
    declared label that the file has it holds the file's field (the empty
    string for a missing value), and a label that is not declared is not a
    column of the result. *)
Theorem load_has_declared_columns (w : World) (h : list string)
    (rs : list (list string)) :
  CSV_FILE w = Some (Table h rs) ->
  rectangular h rs = true ->
  columns (load_catalog w) = COLUMNS
  /\ len (load_catalog w) = length rs
  /\ forall k rec, nth_error rs k = Some rec ->
     forall c,
       (In c COLUMNS -> ~ In c h ->
        cell_at (load_catalog w) k c = Some (Str ""))
       /\ (In c COLUMNS -> forall i, index_of c h = Some i ->
           cell_at (load_catalog w) k c
           = Some (fillna_cell "" (parse_field (nth i rec ""))))
       /\ (~ In c COLUMNS -> cell_at (load_catalog w) k c = None).
Proof.
  intros HF HR. rewrite (load_catalog_table w h rs HF HR).
  split; [reflexivity|]. split; [unfold len; cbn [rows]; apply length_map|].
  intros k rec Hk c. repeat split.
  - intros Ic Nh. rewrite (cell_at_loaded h rs k rec c Hk Ic).
    unfold loaded_cell. apply index_of_None in Nh. now rewrite Nh.
  - intros Ic i Ei. rewrite (cell_at_loaded h rs k rec c Hk Ic).
    unfold loaded_cell. now rewrite Ei.
  - intros Nc. unfold cell_at. cbn [rows columns].
    apply index_of_None in Nc. rewrite Nc, nth_error_map, Hk. reflexivity.
Qed.

(** C10. Whatever the file holds, every row of the loaded table has 14
    cells and each of them is a string; a field that reads as a missing
    value comes back as the empty string. *)
Theorem loaded_cells_are_strings (w : World) :
  tabular w = true ->
  Forall (fun r => length r = 14 /\ forallb is_str r = true)
         (rows (load_catalog w))
  /\ forall h rs k rec c i,
       CSV_FILE w = Some (Table h rs) ->
       nth_error rs k = Some rec ->
       In c COLUMNS -> index_of c h = Some i ->
       is_na (nth i rec "") = true ->
       cell_at (load_catalog w) k c = Some (Str "").
Proof.
  intros T. split.
  - unfold tabular in T. destruct (CSV_FILE w) as [[|h rs]|] eqn:HF.
    + unfold load_catalog, exists_, read_csv. rewrite HF. constructor.
    + rewrite (load_catalog_table w h rs HF T). cbn [rows].
      apply Forall_forall. intros r I. apply in_map_iff in I.
      destruct I as (rec & <- & _). split; [reflexivity|].
      apply forallb_forall. intros x Ix. apply in_map_iff in Ix.
      destruct Ix as (c & <- & _). apply loaded_cell_is_str.
    + unfold load_catalog, exists_. rewrite HF. constructor.
  - intros h rs k rec c i HF Hk Ic Ei Hna.
    unfold tabular in T. rewrite HF in T.
    rewrite (load_catalog_table w h rs HF T).
    rewrite (cell_at_loaded h rs k rec c Hk Ic).
    unfold loaded_cell, parse_field. now rewrite Ei, Hna.
Qed.

End LoadedFrame.

(* ===================================================================== *)
(** ** Duplicate detection *)
(* ===================================================================== *)

Section Duplicates.

Import pd.

Lemma band_map {A} (g1 g2 : A -> bool) (l : list A) :
  band (map g1 l) (map g2 l) = map (fun x => g1 x && g2 x) l.
Proof. induction l as [|x l IH]; simpl; [reflexivity | now rewrite IH]. Qed.

Lemma any_map {A} (g : A -> bool) (l : list A) :
  any (map g l) = existsb g l.
Proof.
  unfold any. induction l as [|x l IH]; simpl; [reflexivity | now rewrite IH].
Qed.

Lemma frame_row (df : DataFrame) (r : list cell) :
  frame_of_strings df = true -> In r (rows df) ->
  length r = length (columns df) /\ forall x, In x r -> exists s, x = Str s.
Proof.
  unfold frame_of_strings. rewrite forallb_forall. intros H I.
  apply H in I. apply andb_true_iff in I. destruct I as [L S].
  apply Nat.eqb_eq in L. split; [exact L|].
  rewrite forallb_forall in S. intros [|s] Ix; [|now exists s].
  apply S in Ix. discriminate.
Qed.

(** One comparison of the mask: either the column is there and the series
    of booleans tells, row by row, whether the field matches, or the lookup
    raises and no row has such a field. *)
Lemma column_matches_spec (df : DataFrame) (c v : string) :
  frame_of_strings df = true ->
  match column_matches df c (lower (strip v)) with
  | Ok m => exists g, m = map g (rows df)
            /\ forall r, In r (rows df) ->
                 (g r = true <-> field_matches df r c v)
  | Raise _ => forall r, ~ field_matches df r c v
  end.
Proof.
  intros F. unfold column_matches, getitem.
  destruct (index_of c (columns df)) as [i|] eqn:E; cbn [bind].
  - rewrite map_map. eexists. split; [reflexivity|].
    intros r I. destruct (frame_row df r F I) as [L S].
    destruct (index_of_Some _ _ _ E) as [Li _].
    destruct (nth_error r i) as [x|] eqn:N;
      [|apply nth_error_None in N; lia].
    rewrite (nth_error_nth _ _ NaN N).
    destruct (S x (nth_error_In _ _ N)) as [s ->]. cbn [astype_str].
    rewrite String.eqb_eq. split.
    + intros M. exists i, s. now repeat split.
    + intros (i' & x' & Ei & Nx & M).
      rewrite E in Ei. inversion Ei. subst i'.
      rewrite N in Nx. inversion Nx. now subst x'.
  - intros r (i & x & Ei & _). congruence.
Qed.

(** The mask has a true entry exactly when some row matches on the five
    compared fields. *)
Lemma duplicate_exists_rows (df : DataFrame) (t n s r y : string) :
  frame_of_strings df = true ->
  duplicate_exists df t n s r y = true <->
  exists row, In row (rows df)
    /\ field_matches df row "Toy #" t
    /\ field_matches df row "Name" n
    /\ field_matches df row "Series" s
    /\ field_matches df row "Rarity" r
    /\ field_matches df row "Year" y.
Proof.
  intros F.
  unfold duplicate_exists. destruct (empty df) eqn:E.
  - split; [discriminate|]. intros (row & I & (i & x & Ei & _) & _).
    unfold empty in E. destruct (columns df); [discriminate|].
    destruct (rows df); [contradiction | discriminate].
  - pose proof (column_matches_spec df "Toy #" t F) as S1.
    pose proof (column_matches_spec df "Name" n F) as S2.
    pose proof (column_matches_spec df "Series" s F) as S3.
    pose proof (column_matches_spec df "Rarity" r F) as S4.
    pose proof (column_matches_spec df "Year" y F) as S5.
    destruct (column_matches df "Toy #" _) as [m1|e1]; cbn [bind try_except];
      [|split; [discriminate | intros (row & _ & M & _); elim (S1 row M)]].
    destruct (column_matches df "Name" _) as [m2|e2]; cbn [bind try_except];
      [|split; [discriminate | intros (row & _ & _ & M & _); elim (S2 row M)]].
    destruct (column_matches df "Series" _) as [m3|e3]; cbn [bind try_except];
      [|split; [discriminate
               | intros (row & _ & _ & _ & M & _); elim (S3 row M)]].
    destruct (column_matches df "Rarity" _) as [m4|e4]; cbn [bind try_except];
      [|split; [discriminate
               | intros (row & _ & _ & _ & _ & M & _); elim (S4 row M)]].
    destruct (column_matches df "Year" _) as [m5|e5]; cbn [bind try_except];
      [|split; [discriminate
               | intros (row & _ & _ & _ & _ & _ & M); elim (S5 row M)]].
    destruct S1 as (g1 & -> & G1), S2 as (g2 & -> & G2),
             S3 as (g3 & -> & G3), S4 as (g4 & -> & G4),
             S5 as (g5 & -> & G5).
    rewrite !band_map, any_map, existsb_exists.
    split.
    + intros (row & I & B). exists row. split; [exact I|].
      rewrite !andb_true_iff in B. destruct B as ((((B1 & B2) & B3) & B4) & B5).
      repeat split;
        [apply G1 | apply G2 | apply G3 | apply G4 | apply G5]; assumption.
    + intros (row & I & M1 & M2 & M3 & M4 & M5). exists row.
      split; [exact I|]. rewrite !andb_true_iff.
      repeat split;
        [apply G1 | apply G2 | apply G3 | apply G4 | apply G5]; assumption.
Qed.

(** C3. On a frame of strings, [duplicate_exists] answers true exactly when
    some row has Toy #, Name, Series, Rarity and Year equal to the
    candidate's after trimming and lowercasing; on an empty frame it
    answers false for every candidate. *)
Theorem duplicate_exists_spec (df : DataFrame) (t n s r y : string) :
  frame_of_strings df = true ->
  (duplicate_exists df t n s r y = true <->
   exists row, In row (rows df)
     /\ field_matches df row "Toy #" t
     /\ field_matches df row "Name" n
     /\ field_matches df row "Series" s
     /\ field_matches df row "Rarity" r
     /\ field_matches df row "Year" y)
  /\ (empty df = true -> duplicate_exists df t n s r y = false).
Proof.
  intros F. split; [now apply duplicate_exists_rows|].
  unfold duplicate_exists. now intros ->.
Qed.

End Duplicates.

(* ===================================================================== *)
(** ** Saving *)
(* ===================================================================== *)

Section Saving.

Import pd.

Lemma loaded_rows_clean (w : World) :
  tabular w = true -> clean_rows (rows (load_catalog w)) = true.
Proof.
  intros T. unfold tabular in T.
  destruct (CSV_FILE w) as [[|h rs]|] eqn:HF.
  - unfold load_catalog, exists_, read_csv. now rewrite HF.
  - rewrite (load_catalog_table w h rs HF T). cbn [rows].
    unfold clean_rows. apply forallb_forall. intros r I.
    apply in_map_iff in I. destruct I as (rec & <- & _).
    apply andb_true_iff. split; [reflexivity|].
    apply forallb_forall. intros x Ix. apply in_map_iff in Ix.
    destruct Ix as (c & <- & _). unfold loaded_cell.
    destruct (index_of c h) as [i|]; [|reflexivity].
    unfold parse_field.
    destruct (is_na (nth i rec "")) eqn:N; cbn [fillna_cell clean_cell].
    + reflexivity.
    + rewrite N. apply orb_true_r.
  - unfold load_catalog, exists_. now rewrite HF.
Qed.

Lemma clean_rows_app (a b : list (list cell)) :
  clean_rows (a ++ b) = clean_rows a && clean_rows b.
Proof. apply forallb_app. Qed.

Lemma clean_row_14 (rs : list (list cell)) (r : list cell) :
  clean_rows rs = true -> In r rs ->
  length r = 14 /\ forallb clean_cell r = true.
Proof.
  unfold clean_rows. rewrite forallb_forall. intros H I. apply H in I.
  apply andb_true_iff in I. destruct I as [L C].
  now apply Nat.eqb_eq in L.
Qed.

(** A row of 14 cells laid out again under its own labels is itself. *)
Lemma reindex_row_declared (r : list cell) :
  length r = 14 -> reindex_row COLUMNS COLUMNS r = r.
Proof.
  intros L. do 14 (destruct r as [|? r]; [discriminate L|]).
  destruct r; [reflexivity | discriminate L].
Qed.

Lemma filter_declared (keys : list string) :
  forallb (fun k => mem k COLUMNS) keys = true ->
  filter (fun c => negb (mem c COLUMNS)) keys = [].
Proof.
  induction keys as [|k keys IH]; simpl; [reflexivity|].
  intros H. apply andb_true_iff in H. destruct H as [Hk H].
  rewrite Hk. simpl. now apply IH.
Qed.

(** The file that [save_row] leaves when the write goes through and the
    dict has no key beside the declared labels. *)
Lemma save_row_file (row : list (string * string)) (w : World) :
  forallb (fun k => mem k COLUMNS) (map fst row) = true ->
  write_fault w = None ->
  save_row row w
  = Ok (mkWorld
          (Some (Table COLUMNS
                   (map (map render_cell)
                      (map (reindex_row COLUMNS COLUMNS)
                           (rows (load_catalog w))
                       ++ [reindex_row (map fst row) COLUMNS
                             (map (fun kv => Str (snd kv)) row)]))))
          None).
Proof.
  intros HK HF. unfold save_row, to_csv. rewrite HF.
  unfold concat. rewrite load_catalog_columns.
  cbn [of_record columns rows]. rewrite (filter_declared _ HK).
  rewrite app_nil_r. reflexivity.
Qed.

Lemma record_cell (row : list (string * string)) (c : string) :
  match index_of c (map fst row) with
  | Some i => nth i (map (fun kv => Str (snd kv)) row) NaN
  | None => NaN
  end
  = match dict_get row c with Some v => Str v | None => NaN end.
Proof.
  induction row as [|[k v] row IH]; simpl; [reflexivity|].
  destruct (String.eqb c k); [reflexivity|].
  rewrite <- IH. destruct (index_of c (map fst row)); reflexivity.
Qed.

Lemma loaded_declared (rec : list string) :
  length rec = 14 ->
  map (loaded_cell COLUMNS rec) COLUMNS
  = map (fun x => fillna_cell "" (parse_field x)) rec.
Proof.
  intros L. do 14 (destruct rec as [|? rec]; [discriminate L|]).
  destruct rec; [reflexivity | discriminate L].
Qed.

Lemma read_back_clean (x : cell) :
  clean_cell x = true -> fillna_cell "" (parse_field (render_cell x)) = x.
Proof.
  destruct x as [|s]; simpl; [discriminate|]. unfold parse_field.
  intros H. apply orb_true_iff in H. destruct H as [H|H].
  - apply String.eqb_eq in H. now subst.
  - apply negb_true_iff in H. now rewrite H.
Qed.

Lemma read_back_cell (x : cell) :
  fillna_cell "" (parse_field (render_cell x))
  = Str (match x with Str v => read_back v | NaN => "" end).
Proof.
  destruct x as [|s]; [reflexivity|]. simpl. unfold parse_field, read_back.
  destruct (is_na s); reflexivity.
Qed.

(** One [save_row], then [load_catalog]: the rows that were there, then the
    row that was saved. *)
Lemma save_row_spec (row : list (string * string)) (w : World) :
  tabular w = true ->
  write_fault w = None ->
  catalog_dict row = true ->
  exists w',
    save_row row w = Ok w'
    /\ write_fault w' = None
    /\ tabular w' = true
    /\ load_catalog w'
       = mkDataFrame COLUMNS (rows (load_catalog w) ++ [stored_row row]).
Proof.
  intros T HF HD. unfold catalog_dict in HD.
  apply andb_true_iff in HD. destruct HD as [_ HK].
  pose proof (loaded_rows_clean w T) as C.
  eexists. split; [apply (save_row_file row w HK HF)|].
  split; [reflexivity|].
  set (R := rows (load_catalog w)) in *.
  set (new := reindex_row (map fst row) COLUMNS
                (map (fun kv => Str (snd kv)) row)).
  assert (E : map (reindex_row COLUMNS COLUMNS) R = R).
  { rewrite <- (map_id R) at 2. apply map_ext_in. intros r I.
    apply reindex_row_declared. now destruct (clean_row_14 R r C I). }
  rewrite E.
  assert (Rect : rectangular COLUMNS (map (map render_cell) (R ++ [new]))
                 = true).
  { unfold rectangular. apply forallb_forall. intros rec I.
    apply in_map_iff in I. destruct I as (r & <- & I).
    rewrite length_map. apply Nat.eqb_eq.
    apply in_app_or in I. destruct I as [I|[<-|[]]].
    - now destruct (clean_row_14 R r C I).
    - reflexivity. }
  split; [exact Rect|].
  rewrite (load_catalog_table
             (mkWorld (Some (Table COLUMNS
                               (map (map render_cell) (R ++ [new])))) None)
             COLUMNS _ eq_refl Rect).
  f_equal. rewrite map_map, map_app. cbn [map]. f_equal.
  - rewrite <- (map_id R) at 2. apply map_ext_in. intros r I.
    destruct (clean_row_14 R r C I) as [L Cl].
    rewrite loaded_declared by (now rewrite length_map).
    rewrite map_map. rewrite <- (map_id r) at 2.
    apply map_ext_in. intros x Ix. apply read_back_clean.
    rewrite forallb_forall in Cl. now apply Cl.
  - f_equal. rewrite loaded_declared by reflexivity.
    subst new. unfold reindex_row, stored_row. rewrite !map_map.
    apply map_ext. intros c. rewrite record_cell, read_back_cell.
    destruct (dict_get row c); reflexivity.
Qed.

End Saving.

Section RoundTrip.

Import pd.

Lemma clean_cell_is_str (x : cell) : clean_cell x = true -> is_str x = true.
Proof. destruct x; [discriminate | reflexivity]. Qed.

Lemma clean_rows_strings (R : list (list cell)) :
  clean_rows R = true ->
  Forall (fun r => length r = 14 /\ forallb is_str r = true) R.
Proof.
  intros C. apply Forall_forall. intros r I.
  destruct (clean_row_14 R r C I) as [L Cl]. split; [exact L|].
  rewrite forallb_forall in *. intros x Ix.
  apply clean_cell_is_str. now apply Cl.
Qed.

Lemma plain_nth (rec : list string) (i : nat) :
  forallb plain rec = true -> plain (nth i rec "") = true.
Proof.
  revert i. induction rec as [|x rec IH]; intros [|i] H; cbn in *;
    try reflexivity; apply andb_true_iff in H; destruct H as [Hx Hr].
  - exact Hx.
  - now apply IH.
Qed.

Lemma loaded_rows_plain (w : World) :
  tabular w = true -> plain_file w = true ->
  plain_rows (rows (load_catalog w)) = true.
Proof.
  intros T P. unfold tabular in T. unfold plain_file in P.
  destruct (CSV_FILE w) as [[|h rs]|] eqn:HF.
  - unfold load_catalog, exists_, read_csv. now rewrite HF.
  - rewrite (load_catalog_table w h rs HF T). cbn [rows].
    unfold plain_rows. apply forallb_forall. intros r I.
    apply in_map_iff in I. destruct I as (rec & <- & Irec).
    rewrite forallb_forall in P. specialize (P rec Irec).
    apply forallb_forall. intros x Ix. apply in_map_iff in Ix.
    destruct Ix as (c & <- & _). unfold loaded_cell.
    destruct (index_of c h) as [i|]; [|reflexivity].
    unfold parse_field. destruct (is_na (nth i rec "")); cbn; [reflexivity|].
    now apply plain_nth.
  - unfold load_catalog, exists_. now rewrite HF.
Qed.

Lemma dict_get_plain (row : list (string * string)) (c v : string) :
  plain_dict row = true -> dict_get row c = Some v -> plain v = true.
Proof.
  induction row as [|[k x] row IH]; cbn; intros P G; [discriminate|].
  apply andb_true_iff in P. destruct P as [Px Pr].
  destruct (String.eqb c k); [inversion G; now subst | now apply IH].
Qed.

Lemma record_row_plain (row : list (string * string)) (y : cell) :
  plain_dict row = true ->
  In y (reindex_row (map fst row) COLUMNS
          (map (fun kv => Str (snd kv)) row)) ->
  plain (render_cell y) = true.
Proof.
  intros PD Iy. unfold reindex_row in Iy. apply in_map_iff in Iy.
  destruct Iy as (c & <- & _). rewrite record_cell.
  destruct (dict_get row c) as [v|] eqn:G; [|reflexivity].
  cbn. exact (dict_get_plain row c v PD G).
Qed.

(** The file that a save of plain text leaves is plain again. *)
Lemma save_row_plain (row : list (string * string)) (w w' : World) :
  tabular w = true -> plain_file w = true ->
  catalog_dict row = true -> plain_dict row = true ->
  save_row row w = Ok w' ->
  plain_file w' = true.
Proof.
  intros T P HD PD S. unfold catalog_dict in HD.
  apply andb_true_iff in HD. destruct HD as [_ HK].
  assert (HF : write_fault w = None).
  { unfold save_row, to_csv in S.
    destruct (write_fault w); [discriminate | reflexivity]. }
  rewrite (save_row_file row w HK HF) in S. inversion S. subst w'. clear S.
  unfold plain_file. cbn [CSV_FILE].
  pose proof (loaded_rows_clean w T) as C.
  pose proof (loaded_rows_plain w T P) as PR.
  apply forallb_forall. intros rec I.
  apply in_map_iff in I. destruct I as (r & <- & I).
  apply forallb_forall. intros x Ix.
  apply in_map_iff in Ix. destruct Ix as (y & <- & Iy).
  apply in_app_or in I. destruct I as [I|[<-|[]]].
  - apply in_map_iff in I. destruct I as (r0 & <- & I0).
    rewrite reindex_row_declared in Iy
      by (now destruct (clean_row_14 _ r0 C I0)).
    unfold plain_rows in PR. rewrite forallb_forall in PR.
    specialize (PR r0 I0). rewrite forallb_forall in PR. now apply PR.
  - exact (record_row_plain row y PD Iy).
Qed.

Lemma save_rows_plain_spec (rs : list (list (string * string))) :
  forall w,
    tabular w = true ->
    plain_file w = true ->
    write_fault w = None ->
    forallb catalog_dict rs = true ->
    forallb plain_dict rs = true ->
    exists w',
      save_rows rs w = Ok w'
      /\ tabular w' = true
      /\ plain_file w' = true
      /\ rows (load_catalog w') = rows (load_catalog w) ++ map stored_row rs.
Proof.
  induction rs as [|r rs IH]; intros w T P HF HD HP.
  - exists w. cbn. rewrite app_nil_r. now repeat split.
  - cbn [forallb] in HD, HP.
    apply andb_true_iff in HD. destruct HD as [Hr Hrs].
    apply andb_true_iff in HP. destruct HP as [Pr Prs].
    destruct (save_row_spec r w T HF Hr) as (w1 & S1 & F1 & T1 & L1).
    pose proof (save_row_plain r w w1 T P Hr Pr S1) as P1.
    destruct (IH w1 T1 P1 F1 Hrs Prs) as (w' & S' & T' & P' & L').
    exists w'. cbn [save_rows]. rewrite S1. cbn [bind].
    repeat split; try assumption.
    rewrite L', L1. cbn [rows map]. now rewrite <- app_assoc.
Qed.

(** X17. Rows of plain text written with [save_row], one after the other,
    onto a catalog of plain text: loading afterwards gives the 14 declared
    columns in the declared order and the rows that were there followed by
    one row per dict written, so exactly N rows when it started empty;
    every row has 14 cells and every cell is a string, the empty string
    where the dict had no value or a marker of a missing value. *)
Theorem save_rows_of_plain_text (rs : list (list (string * string)))
    (w : World) :
  tabular w = true ->
  plain_file w = true ->
  write_fault w = None ->
  forallb catalog_dict rs = true ->
  forallb plain_dict rs = true ->
  exists w',
    save_rows rs w = Ok w'
    /\ columns (load_catalog w') = COLUMNS
    /\ rows (load_catalog w') = rows (load_catalog w) ++ map stored_row rs
    /\ len (load_catalog w') = len (load_catalog w) + length rs
    /\ (len (load_catalog w) = 0 -> len (load_catalog w') = length rs)
    /\ Forall (fun r => length r = 14 /\ forallb is_str r = true)
              (rows (load_catalog w')).
Proof.
  intros T P HF HD HP.
  destruct (save_rows_plain_spec rs w T P HF HD HP) as (w' & S & T' & _ & L).
  exists w'. split; [exact S|]. split; [apply load_catalog_columns|].
  split; [exact L|].
  assert (N : len (load_catalog w') = len (load_catalog w) + length rs).
  { unfold len. now rewrite L, length_app, length_map. }
  split; [exact N|]. split; [intros Z; now rewrite N, Z|].
  apply clean_rows_strings. now apply loaded_rows_clean.
Qed.

End RoundTrip.

(* ===================================================================== *)
(** ** Submissions that reach the file *)
(* ===================================================================== *)

Section Submissions.

Import pd.

Lemma on_submit_success (f : Form) (w w' : World) :
  on_submit f w = (st_success msg_saved, w') ->
  missing f = []
  /\ String.eqb (rarity f) "Exclusive"
     && negb (truthy (strip (exclusive_desc f))) = false
  /\ duplicate_exists (load_catalog w)
       (toy_no f) (name f) (series f) (rarity f) (year f) = false
  /\ write_fault w = None
  /\ save_row (entry_row f) w = Ok w'.
Proof.
  unfold on_submit. destruct (missing f); [|discriminate].
  destruct (_ && _); [discriminate|].
  destruct (duplicate_exists _ _ _ _ _ _); [discriminate|].
  destruct (save_row (entry_row f) w) as [w1|e] eqn:S; [|discriminate].
  intros H. inversion H. subst w1. repeat split.
  unfold save_row, to_csv in S.
  destruct (write_fault w); [discriminate | reflexivity].
Qed.

Lemma strip_option (v : string) : In v rarity_options -> strip v = v.
Proof.
  cbn. intros H.
  repeat (destruct H as [<-|H]; [reflexivity|]). contradiction.
Qed.

Lemma clean_frame (df : DataFrame) :
  columns df = COLUMNS -> clean_rows (rows df) = true ->
  frame_of_strings df = true.
Proof.
  intros HC C. unfold frame_of_strings. rewrite HC.
  apply forallb_forall. intros r I.
  destruct (clean_row_14 _ r C I) as [L Cl]. rewrite L.
  apply andb_true_iff. split; [reflexivity|].
  rewrite forallb_forall in *. intros x Ix.
  apply clean_cell_is_str. now apply Cl.
Qed.

(** What [load_catalog] returns is a frame of strings: the frames that
    [duplicate_exists] is called on. *)
Lemma loaded_frame_of_strings (w : World) :
  tabular w = true -> frame_of_strings (load_catalog w) = true.
Proof.
  intros T. apply clean_frame; [apply load_catalog_columns|].
  now apply loaded_rows_clean.
Qed.

Lemma survives_read_back (v : string) :
  survives v = true ->
  lower (strip (read_back (strip v))) = lower (strip v).
Proof.
  unfold survives, read_back. intros H.
  apply orb_true_iff in H. destruct H as [H|H].
  - apply String.eqb_eq in H. rewrite H. reflexivity.
  - apply negb_true_iff in H. rewrite H. now rewrite strip_idem.
Qed.

(** Duplicate rejection at work, on plain text: when none of the five
    compared values, once trimmed, is a marker of a missing value, a saved
    entry submitted again is skipped, and the catalog has grown by one
    row. *)
Theorem resubmit_is_skipped (f : Form) (w w1 : World) :
  tabular w = true ->
  plain_file w = true ->
  plain_form f = true ->
  composite_survives f = true ->
  on_submit f w = (st_success msg_saved, w1) ->
  on_submit f w1 = (st_warning msg_duplicate, w1)
  /\ len (load_catalog w1) = len (load_catalog w) + 1.
Proof.
  intros T _ _ CS HS.
  destruct (on_submit_success f w w1 HS) as (HM & HX & _ & HF & S).
  destruct (save_row_spec (entry_row f) w T HF eq_refl)
    as (w' & S' & F' & T' & L').
  rewrite S in S'. inversion S'. subst w'. clear S'.
  split; [|unfold len; rewrite L'; cbn [rows]; rewrite length_app; reflexivity].
  assert (D : duplicate_exists (load_catalog w1)
                (toy_no f) (name f) (series f) (rarity f) (year f) = true).
  { apply duplicate_exists_rows.
    - now apply loaded_frame_of_strings.
    - unfold composite_survives in CS. rewrite !andb_true_iff in CS.
      destruct CS as ((((C1 & C2) & C3) & C4) & C5).
      exists (stored_row (entry_row f)). rewrite L'. cbn [rows columns].
      split; [apply in_or_app; right; now left|].
      repeat split; eexists _, _;
        (split; [reflexivity|]; split; [reflexivity|]);
        now apply survives_read_back. }
  unfold on_submit. rewrite HM, HX, D. reflexivity.
Qed.

(** The scenario of the specification: saved once, skipped the second
    time, one row in the catalog. *)
Example camaro_twice :
  exists w1,
    on_submit camaro no_file = (st_success msg_saved, w1)
    /\ on_submit camaro w1 = (st_warning msg_duplicate, w1)
    /\ len (load_catalog w1) = 1.
Proof. eexists. repeat split; vm_compute; reflexivity. Qed.

(** C1, evaluated where it fails. The entry of the scenario with "N/A"
    typed as its year, submitted twice on a catalog with no file: both
    submissions are saved and the catalog has two rows, because the year
    written as N/A is read back as a missing value and loaded as the empty
    string, which the second comparison does not match. *)
Theorem resubmit_with_na_year_saved_twice :
  exists w1 w2,
    on_submit camaro_year_unknown no_file = (st_success msg_saved, w1)
    /\ duplicate_exists (load_catalog w1) "GHC39" "'67 Camaro" "Mainline"
         "STH" "N/A" = false
    /\ on_submit camaro_year_unknown w1 = (st_success msg_saved, w2)
    /\ len (load_catalog no_file) = 0
    /\ len (load_catalog w1) = 1
    /\ len (load_catalog w2) = 2.
Proof. eexists _, _. repeat split; vm_compute; reflexivity. Qed.

End Submissions.

(* ===================================================================== *)
(** ** The theorems at work on concrete inputs *)
(* ===================================================================== *)

Lemma missing_required_reported_witness :
  on_submit no_toy_no no_file
  = (st_error "Missing required fields: Toy #", no_file)
  /\ missing no_toy_no = ["Toy #"].
Proof.
  split; [|reflexivity].
  exact (proj1 (missing_required_reported no_toy_no no_file
                  (or_introl eq_refl))).
Defined.

Lemma exclusive_needs_description_witness :
  on_submit exclusive_undescribed no_file = (st_error msg_exclusive, no_file).
Proof.
  apply exclusive_needs_description;
    try reflexivity; vm_compute; discriminate.
Defined.

Lemma write_failure_reported_witness :
  on_submit camaro read_only
  = (st_error "Failed to save entry: Permission denied", read_only).
Proof.
  refine (proj1 (write_failure_reported camaro read_only "Permission denied"
                   eq_refl _ eq_refl eq_refl)).
  vm_compute. discriminate.
Defined.

Lemma load_has_declared_columns_witness :
  columns (load_catalog foreign_file) = COLUMNS
  /\ pd.len (load_catalog foreign_file) = 1
  /\ cell_at (load_catalog foreign_file) 0 "Name" = Some (Str "Bone Shaker")
  /\ cell_at (load_catalog foreign_file) 0 "Toy #" = Some (Str "")
  /\ cell_at (load_catalog foreign_file) 0 "Year" = Some (Str "")
  /\ cell_at (load_catalog foreign_file) 0 "Owner" = None.
Proof.
  destruct (load_has_declared_columns foreign_file
              ["Name"; "Toy #"; "Owner"] [["Bone Shaker"; "NA"; "Sam"]]
              eq_refl eq_refl) as (HC & HL & HR).
  split; [exact HC|]. split; [exact HL|].
  pose proof (HR 0 _ eq_refl) as H0.
  split; [|split; [|split]].
  - refine (proj1 (proj2 (H0 "Name")) _ 0 eq_refl).
    vm_compute. tauto.
  - refine (proj1 (proj2 (H0 "Toy #")) _ 1 eq_refl).
    vm_compute. tauto.
  - refine (proj1 (H0 "Year") _ _).
    + vm_compute. tauto.
    + vm_compute. intuition discriminate.
  - refine (proj2 (proj2 (H0 "Owner")) _).
    vm_compute. intuition discriminate.
Defined.

Lemma loaded_cells_are_strings_witness :
  Forall (fun r => length r = 14 /\ forallb is_str r = true)
         (rows (load_catalog foreign_file))
  /\ cell_at (load_catalog foreign_file) 0 "Toy #" = Some (Str "").
Proof.
  destruct (loaded_cells_are_strings foreign_file eq_refl) as [HA HB].
  split; [exact HA|].
  refine (HB _ _ 0 _ "Toy #" 1 eq_refl eq_refl _ eq_refl eq_refl).
  vm_compute. tauto.
Defined.

Lemma duplicate_exists_spec_witness :
  duplicate_exists one_row " hw01 " "Twin Mill" "MAINLINE" "th" "2021" = true
  /\ duplicate_exists (pd.empty_frame COLUMNS)
       " hw01 " "Twin Mill" "MAINLINE" "th" "2021" = false.
Proof.
  split.
  - apply (proj1 (duplicate_exists_spec one_row
                    " hw01 " "Twin Mill" "MAINLINE" "th" "2021" eq_refl)).
    eexists. split; [left; reflexivity|].
    repeat split; eexists _, _;
      (split; [reflexivity|]; split; reflexivity).
  - apply (proj2 (duplicate_exists_spec (pd.empty_frame COLUMNS)
                    " hw01 " "Twin Mill" "MAINLINE" "th" "2021" eq_refl)).
    reflexivity.
Defined.

(* ===================================================================== *)
(** ** Further properties of the submit handler *)
(* ===================================================================== *)

Section Handler.

Import pd.

Lemma missing_nil (f : Form) :
  missing f = [] ->
  strip (toy_no f) <> "" /\ strip (name f) <> ""
  /\ strip (series f) <> "" /\ strip (rarity f) <> "".
Proof.
  unfold missing, required.
  destruct (strip (toy_no f)), (strip (name f)),
           (strip (series f)), (strip (rarity f));
    simpl; intros H; try discriminate H.
  repeat split; discriminate.
Qed.

Lemma exclusive_check (f : Form) :
  String.eqb (rarity f) "Exclusive"
  && negb (truthy (strip (exclusive_desc f))) = false
  <-> (rarity f = "Exclusive" -> strip (exclusive_desc f) <> "").
Proof.
  rewrite andb_false_iff, negb_false_iff. split.
  - intros [H|H] R.
    + rewrite R in H. discriminate.
    + intros E. rewrite E in H. discriminate.
  - intros H. destruct (String.eqb_spec (rarity f) "Exclusive") as [R|R];
      [right | now left].
    destruct (strip (exclusive_desc f)); [now elim (H R) | reflexivity].
Qed.

Lemma reset_is_refused (refusal : string -> string) :
  reset_inputs refusal = Some (refusal "toy_no").
Proof. reflexivity. Qed.

(** X2. A submission of plain text with the required fields filled in, a
    description when Rarity is Exclusive, no matching row in the catalog
    and a write that goes through: the handler shows the success notice and
    then, the reset of the first input being refused, the error "Failed to
    save entry: ..."; the catalog loaded afterwards is the one before
    followed by one row, which holds the 14 values trimmed, as [read_csv]
    gives them back. *)
Theorem valid_entry_is_appended (refusal : string -> string)
    (f : Form) (w : World) :
  tabular w = true ->
  plain_file w = true ->
  plain_form f = true ->
  write_fault w = None ->
  missing f = [] ->
  (rarity f = "Exclusive" -> strip (exclusive_desc f) <> "") ->
  duplicate_exists (load_catalog w)
    (toy_no f) (name f) (series f) (rarity f) (year f) = false ->
  exists w',
    submitted refusal f w
    = ([st_success msg_saved;
        st_error ("Failed to save entry: " ++ refusal "toy_no")], w')
    /\ rows (load_catalog w')
       = rows (load_catalog w)
         ++ [map (fun kv => Str (read_back (snd kv))) (entry_row f)]
    /\ len (load_catalog w') = len (load_catalog w) + 1.
Proof.
  intros T _ _ HF HM HX HD.
  destruct (save_row_spec (entry_row f) w T HF eq_refl)
    as (w' & S & _ & _ & L).
  exists w'. unfold submitted. rewrite HM, HD.
  rewrite (proj2 (exclusive_check f) HX), S, reset_is_refused.
  split; [reflexivity|]. unfold len. rewrite L. cbn [rows].
  split; [reflexivity|]. rewrite length_app. reflexivity.
Qed.


(** The file after a submission that was saved. *)
Lemma saved_file (f : Form) (w w' : World) :
  on_submit f w = (st_success msg_saved, w') ->
  CSV_FILE w'
  = Some (Table COLUMNS
            (map (map render_cell)
                 (map (reindex_row COLUMNS COLUMNS) (rows (load_catalog w)))
             ++ [map snd (entry_row f)])).
Proof.
  intros HS. destruct (on_submit_success f w w' HS) as (_ & _ & _ & HF & S).
  rewrite (save_row_file (entry_row f) w eq_refl HF) in S.
  inversion S. cbn [CSV_FILE]. rewrite map_app. reflexivity.
Qed.

(** X3. The record that a saved submission appends to the file has Toy #,
    Name, Series and Rarity non-empty, and a non-empty Exclusive
    Description when its Rarity is Exclusive (the selectbox value being one
    of [rarity_options]). This is said of the record as it is appended; a
    later save writes the whole catalog again as it was loaded. *)
Theorem written_row_is_valid (f : Form) (w w' : World) :
  In (rarity f) rarity_options ->
  on_submit f w = (st_success msg_saved, w') ->
  exists recs last,
    CSV_FILE w' = Some (Table COLUMNS (recs ++ [last]))
    /\ field_of last "Toy #" <> ""
    /\ field_of last "Name" <> ""
    /\ field_of last "Series" <> ""
    /\ field_of last "Rarity" <> ""
    /\ (field_of last "Rarity" = "Exclusive" ->
        field_of last "Exclusive Description" <> "").
Proof.
  intros HR HS. eexists _, _. split; [apply (saved_file f w w' HS)|].
  destruct (on_submit_success f w w' HS) as (HM & HX & _).
  destruct (missing_nil f HM) as (M1 & M2 & M3 & M4).
  cbn. repeat split; try assumption.
  rewrite (strip_option _ HR). intros R.
  apply (proj1 (exclusive_check f) HX R).
Qed.

(** X4. Every field of the record that a saved submission appends is
    trimmed: it has no white space at either end, whatever was typed. *)
Theorem written_row_is_trimmed (f : Form) (w w' : World) :
  on_submit f w = (st_success msg_saved, w') ->
  exists recs last,
    CSV_FILE w' = Some (Table COLUMNS (recs ++ [last]))
    /\ length last = 14
    /\ Forall (fun v => strip v = v) last.
Proof.
  intros HS. eexists _, _. split; [apply (saved_file f w w' HS)|].
  split; [reflexivity|].
  cbn. repeat constructor; apply strip_idem.
Qed.



End Handler.

(* ===================================================================== *)
(** ** Further properties of saving and loading *)
(* ===================================================================== *)

Section Files.

Import pd.

(** X5. A [save_row] of plain text that goes through, on a file of plain
    text with any columns, leaves a file with exactly the declared header:
    14 plain fields in every record, one record more than the catalog had,
    and no column that is not declared. *)
Theorem save_row_leaves_declared_table (row : list (string * string))
    (w : World) :
  tabular w = true ->
  plain_file w = true ->
  catalog_dict row = true ->
  plain_dict row = true ->
  write_fault w = None ->
  exists recs,
    save_row row w = Ok (mkWorld (Some (Table COLUMNS recs)) None)
    /\ rectangular COLUMNS recs = true
    /\ forallb (forallb plain) recs = true
    /\ length recs = len (load_catalog w) + 1.
Proof.
  intros T P HD PD HF.
  pose proof HD as HD'. unfold catalog_dict in HD'.
  apply andb_true_iff in HD'. destruct HD' as [_ HK].
  eexists. split; [apply (save_row_file row w HK HF)|]. split; [|split].
  - unfold rectangular. apply forallb_forall. intros rec I.
    apply in_map_iff in I. destruct I as (r & <- & I).
    rewrite length_map. apply Nat.eqb_eq.
    apply in_app_or in I. destruct I as [I|[<-|[]]].
    + apply in_map_iff in I. destruct I as (r0 & <- & _).
      unfold reindex_row. now rewrite length_map.
    + unfold reindex_row. now rewrite length_map.
  - exact (save_row_plain row w _ T P HD PD (save_row_file row w HK HF)).
  - rewrite length_map, length_app, length_map. reflexivity.
Qed.

(** X6. Saving a row of plain text when the file is absent, or holds text
    that [read_csv] rejects, starts the catalog afresh: afterwards it holds
    the saved row and nothing else, so whatever an unreadable file held is
    gone. *)
Theorem save_row_replaces_unreadable_file (row : list (string * string))
    (w : World) :
  CSV_FILE w = None \/ CSV_FILE w = Some Garbled ->
  write_fault w = None ->
  catalog_dict row = true ->
  plain_dict row = true ->
  exists w',
    save_row row w = Ok w' /\ load_catalog w' = stored_frame row.
Proof.
  intros HC HF HD _.
  assert (T : tabular w = true)
    by (unfold tabular; destruct HC as [-> | ->]; reflexivity).
  assert (E : rows (load_catalog w) = []).
  { unfold load_catalog, exists_, read_csv.
    destruct HC as [-> | ->]; reflexivity. }
  destruct (save_row_spec row w T HF HD) as (w' & S & _ & _ & L).
  exists w'. split; [exact S|]. rewrite L, E. reflexivity.
Qed.

(** X7. A catalog of plain text survives the rewrite: a frame with the
    declared columns whose cells are plain strings, none of them a marker
    of a missing value other than the empty string, written with [to_csv]
    and loaded again, comes back as it was; the markers are the only plain
    texts that the rewrite changes ([read_back]). *)
Theorem to_csv_then_load (df : DataFrame) (w : World) :
  columns df = COLUMNS ->
  clean_rows (rows df) = true ->
  plain_rows (rows df) = true ->
  write_fault w = None ->
  exists w', to_csv df w = Ok w' /\ load_catalog w' = df.
Proof.
  destruct df as [cols R]. cbn [columns rows]. intros -> C _ HF.
  unfold to_csv. rewrite HF. cbn [columns rows].
  eexists. split; [reflexivity|].
  assert (Rect : rectangular COLUMNS (map (map render_cell) R) = true).
  { unfold rectangular. apply forallb_forall. intros rec I.
    apply in_map_iff in I. destruct I as (r & <- & I).
    rewrite length_map. apply Nat.eqb_eq.
    now destruct (clean_row_14 R r C I). }
  rewrite (load_catalog_table
             (mkWorld (Some (Table COLUMNS (map (map render_cell) R))) None)
             COLUMNS _ eq_refl Rect).
  f_equal. rewrite map_map. rewrite <- (map_id R) at 2.
  apply map_ext_in. intros r I.
  destruct (clean_row_14 R r C I) as [L Cl].
  rewrite loaded_declared by (now rewrite length_map).
  rewrite map_map. rewrite <- (map_id r) at 2.
  apply map_ext_in. intros x Ix. apply read_back_clean.
  rewrite forallb_forall in Cl. now apply Cl.
Qed.

End Files.

(* ===================================================================== *)
(** ** Further properties of duplicate detection *)
(* ===================================================================== *)

Section Normalisation.

Lemma lower_char_idem (c : ascii) : lower_char (lower_char c) = lower_char c.
Proof. destruct c as [[] [] [] [] [] [] [] []]; vm_compute; reflexivity. Qed.

Lemma isspace_lower_char (c : ascii) : isspace (lower_char c) = isspace c.
Proof. destruct c as [[] [] [] [] [] [] [] []]; vm_compute; reflexivity. Qed.

Lemma lower_idem (s : string) : lower (lower s) = lower s.
Proof.
  induction s as [|c s IH]; simpl; [reflexivity|].
  now rewrite lower_char_idem, IH.
Qed.

Lemma lstrip_lower (s : string) : lstrip (lower s) = lower (lstrip s).
Proof.
  induction s as [|c s IH]; simpl; [reflexivity|].
  rewrite isspace_lower_char. destruct (isspace c); [exact IH | reflexivity].
Qed.

Lemma rstrip_lower (s : string) : rstrip (lower s) = lower (rstrip s).
Proof.
  induction s as [|c s IH]; simpl; [reflexivity|].
  rewrite IH, isspace_lower_char.
  destruct (rstrip s); simpl; [destruct (isspace c)|]; reflexivity.
Qed.

(** Trimming and lowercasing a value that already is trimmed and
    lowercased changes nothing. *)
Lemma normal_form_idem (v : string) :
  lower (strip (lower (strip v))) = lower (strip v).
Proof.
  unfold strip at 1. rewrite lstrip_lower, rstrip_lower, lower_idem.
  fold (strip (strip v)). now rewrite strip_idem.
Qed.

End Normalisation.

Section MoreDuplicates.

Import pd.

(** X8. When the frame lacks one of the five compared columns, the lookup
    raises inside the [try] and [duplicate_exists] answers False: nothing
    is ever reported as a duplicate against such a frame. *)
Theorem duplicate_exists_missing_column (df : DataFrame)
    (t n s r y : string) :
  ~ In "Toy #" (columns df) \/ ~ In "Name" (columns df)
  \/ ~ In "Series" (columns df) \/ ~ In "Rarity" (columns df)
  \/ ~ In "Year" (columns df) ->
  duplicate_exists df t n s r y = false.
Proof.
  intros H. unfold duplicate_exists, column_matches, getitem.
  destruct (empty df); [reflexivity|].
  destruct (index_of "Toy #" (columns df)) eqn:E1; [|reflexivity].
  destruct (index_of "Name" (columns df)) eqn:E2; [|reflexivity].
  destruct (index_of "Series" (columns df)) eqn:E3; [|reflexivity].
  destruct (index_of "Rarity" (columns df)) eqn:E4; [|reflexivity].
  destruct (index_of "Year" (columns df)) eqn:E5; [|reflexivity].
  exfalso.
  destruct H as [H|[H|[H|[H|H]]]]; apply index_of_None in H; congruence.
Qed.

(** X9. The answer of [duplicate_exists] depends on the candidate only
    through its trimmed, lowercased values: a candidate and the same
    candidate trimmed and lowercased get the same answer on every frame. *)
Theorem duplicate_exists_normal_form (df : DataFrame) (t n s r y : string) :
  duplicate_exists df (lower (strip t)) (lower (strip n)) (lower (strip s))
                      (lower (strip r)) (lower (strip y))
  = duplicate_exists df t n s r y.
Proof.
  unfold duplicate_exists. now rewrite !normal_form_idem.
Qed.

Lemma stored_frame_of_strings (row : list (string * string)) :
  frame_of_strings (stored_frame row) = true.
Proof. reflexivity. Qed.

(** X10. After a [save_row] of plain text on a catalog of plain text, a
    candidate is a duplicate exactly when it was one before or it matches
    the row just saved as it is read back: entries already recognised stay
    recognised, and no other candidate becomes a duplicate. *)
Theorem duplicate_exists_after_save (row : list (string * string))
    (w w' : World) (t n s r y : string) :
  tabular w = true ->
  plain_file w = true ->
  catalog_dict row = true ->
  plain_dict row = true ->
  save_row row w = Ok w' ->
  duplicate_exists (load_catalog w') t n s r y
  = duplicate_exists (load_catalog w) t n s r y
    || duplicate_exists (stored_frame row) t n s r y.
Proof.
  intros T _ HD _ S.
  assert (HF : write_fault w = None).
  { unfold save_row, to_csv in S.
    destruct (write_fault w); [discriminate | reflexivity]. }
  destruct (save_row_spec row w T HF HD) as (w1 & S1 & _ & T1 & L).
  rewrite S in S1. inversion S1. subst w1. clear S1.
  pose proof (loaded_frame_of_strings w T) as F0.
  pose proof (loaded_frame_of_strings w' T1) as F1.
  pose proof (load_catalog_columns w) as C0.
  rewrite L in *. clear L.
  destruct (load_catalog w) as [cols R]. cbn [columns rows] in *. subst cols.
  apply eq_true_iff_eq. rewrite orb_true_iff.
  rewrite (duplicate_exists_rows _ t n s r y F1).
  rewrite (duplicate_exists_rows _ t n s r y F0).
  rewrite (duplicate_exists_rows _ t n s r y (stored_frame_of_strings row)).
  cbn [rows stored_frame]. split.
  - intros (x & I & M). apply in_app_or in I. destruct I as [I|I].
    + left. exists x. now split.
    + right. exists x. now split.
  - intros [(x & I & M)|(x & I & M)]; exists x;
      (split; [apply in_or_app; tauto | exact M]).
Qed.

End MoreDuplicates.

(* ===================================================================== *)
(** ** The preview *)
(* ===================================================================== *)

Section Preview.

Import pd.

(** The rows of [df.tail(10).iloc[::-1]]: the last rows of [df], at most
    ten, the latest first. *)
Lemma latest_rows (df : DataFrame) :
  len (iloc_reversed (tail 10 df)) = Nat.min 10 (len df)
  /\ forall k, k < Nat.min 10 (len df) ->
       nth_error (rows (iloc_reversed (tail 10 df))) k
       = nth_error (rows df) (len df - 1 - k).
Proof.
  unfold iloc_reversed, tail, len. cbn [rows columns].
  set (R := rows df). set (n := length R).
  assert (HS : length (skipn (n - 10) R) = Nat.min 10 n)
    by (rewrite length_skipn; fold n; lia).
  split; [now rewrite length_rev|].
  intros k Hk. rewrite nth_error_rev, HS.
  destruct (Nat.ltb_spec k (Nat.min 10 n)) as [_|N]; [|lia].
  rewrite nth_error_skipn. f_equal. lia.
Qed.

Lemma loaded_frame_eta (w : World) :
  load_catalog w = mkDataFrame COLUMNS (rows (load_catalog w)).
Proof.
  pose proof (load_catalog_columns w) as C.
  destruct (load_catalog w) as [cols R]. cbn in *. now subst.
Qed.

Lemma loaded_empty (w : World) :
  empty (load_catalog w) = Nat.eqb (len (load_catalog w)) 0.
Proof.
  rewrite (loaded_frame_eta w).
  destruct (rows (load_catalog w)); reflexivity.
Qed.

(** What the preview shows of a catalog that has rows. *)
Lemma current_catalog_rows (w : World) :
  0 < len (load_catalog w) ->
  exists latest,
    current_catalog w
    = st_dataframe
        ("Showing latest " ++ str_of_nat (Nat.min 10 (len (load_catalog w)))
         ++ " of " ++ str_of_nat (len (load_catalog w)) ++ " entries")
        latest
    /\ columns latest = COLUMNS
    /\ len latest = Nat.min 10 (len (load_catalog w))
    /\ forall k, k < Nat.min 10 (len (load_catalog w)) ->
         exists row,
           nth_error (rows (load_catalog w))
                     (len (load_catalog w) - 1 - k) = Some row
           /\ nth_error (rows latest) k = Some row.
Proof.
  intros P. unfold current_catalog. rewrite loaded_empty.
  destruct (Nat.eqb_spec (len (load_catalog w)) 0) as [Z|_]; [lia|].
  destruct (latest_rows (load_catalog w)) as [HL HK].
  eexists. split; [rewrite HL; reflexivity|].
  split; [apply load_catalog_columns|]. split; [exact HL|].
  intros k Hk. rewrite (HK k Hk).
  destruct (nth_error (rows (load_catalog w)) (len (load_catalog w) - 1 - k))
    as [row|] eqn:E.
  - exists row. now split.
  - apply nth_error_None in E. unfold len in *. lia.
Qed.

(** X11. The preview shows the notice "No entries yet." exactly when the
    loaded catalog has no row: the file is absent, unreadable, or holds
    only a header. *)
Theorem no_entries_notice (w : World) :
  current_catalog w = st_info "No entries yet."
  <-> len (load_catalog w) = 0.
Proof.
  unfold current_catalog. rewrite loaded_empty.
  destruct (Nat.eqb_spec (len (load_catalog w)) 0) as [Z|N].
  - tauto.
  - split; [discriminate | contradiction].
Qed.

(** X12. When the catalog has rows, the preview shows a table with the 14
    declared columns whose rows are the last rows of the catalog, at most
    ten, the latest first; its caption gives the number of rows shown and
    the number of rows of the catalog. *)
Theorem preview_shows_latest (w : World) :
  0 < len (load_catalog w) ->
  exists latest,
    current_catalog w
    = st_dataframe
        ("Showing latest " ++ str_of_nat (Nat.min 10 (len (load_catalog w)))
         ++ " of " ++ str_of_nat (len (load_catalog w)) ++ " entries")
        latest
    /\ columns latest = COLUMNS
    /\ len latest = Nat.min 10 (len (load_catalog w))
    /\ forall k, k < Nat.min 10 (len (load_catalog w)) ->
         exists row,
           nth_error (rows (load_catalog w))
                     (len (load_catalog w) - 1 - k) = Some row
           /\ nth_error (rows latest) k = Some row.
Proof. exact (current_catalog_rows w). Qed.

(** X13. After a submission of plain text that was saved on a catalog of
    plain text, the first row of the preview is the entry just saved, as
    it is read back. *)
Theorem saved_entry_tops_preview (f : Form) (w w' : World) :
  tabular w = true ->
  plain_file w = true ->
  plain_form f = true ->
  on_submit f w = (st_success msg_saved, w') ->
  exists caption latest,
    current_catalog w' = st_dataframe caption latest
    /\ nth_error (rows latest) 0 = Some (stored_row (entry_row f)).
Proof.
  intros T _ _ HS.
  destruct (on_submit_success f w w' HS) as (_ & _ & _ & HF & S).
  destruct (save_row_spec (entry_row f) w T HF eq_refl)
    as (w1 & S1 & _ & _ & L).
  rewrite S in S1. inversion S1. subst w1. clear S1.
  assert (N : len (load_catalog w') = len (load_catalog w) + 1).
  { unfold len. rewrite L. cbn [rows]. now rewrite length_app. }
  destruct (current_catalog_rows w') as (latest & E & _ & _ & HK); [lia|].
  destruct (HK 0) as (row & Hr & Hv); [lia|].
  eexists _, latest. split; [exact E|].
  rewrite Hv. f_equal.
  rewrite N in Hr. replace (len (load_catalog w) + 1 - 1 - 0)
    with (len (load_catalog w)) in Hr by lia.
  rewrite L in Hr. cbn [rows] in Hr. unfold len in Hr.
  rewrite nth_error_app2 in Hr by lia.
  rewrite Nat.sub_diag in Hr. cbn in Hr. now inversion Hr.
Qed.

End Preview.

(* ===================================================================== *)
(** ** The further properties at work on concrete inputs *)
(* ===================================================================== *)


Lemma save_rows_of_plain_text_witness :
  exists w',
    save_rows [entry_row camaro; [("Toy #", "HW02"); ("Year", "n/a")]] no_file
    = Ok w'
    /\ columns (load_catalog w') = COLUMNS
    /\ pd.len (load_catalog w') = 2.
Proof.
  destruct (save_rows_of_plain_text
              [entry_row camaro; [("Toy #", "HW02"); ("Year", "n/a")]]
              no_file eq_refl eq_refl eq_refl eq_refl eq_refl)
    as (w' & S & C & _ & _ & N & _).
  exists w'. split; [exact S|]. split; [exact C|]. exact (N eq_refl).
Defined.

Lemma valid_entry_is_appended_witness :
  exists w',
    submitted refusal_text camaro_padded foreign_file
    = ([st_success msg_saved;
        st_error ("Failed to save entry: " ++ refusal_text "toy_no")], w')
    /\ pd.len (load_catalog w') = 2.
Proof.
  destruct (valid_entry_is_appended refusal_text camaro_padded foreign_file
              eq_refl eq_refl eq_refl eq_refl eq_refl) as (w' & S & _ & N).
  - vm_compute. discriminate.
  - vm_compute. reflexivity.
  - exists w'. split; [exact S | exact N].
Defined.

Lemma written_row_is_valid_witness :
  exists recs last,
    CSV_FILE camaro_saved = Some (Table COLUMNS (recs ++ [last]))
    /\ field_of last "Toy #" <> ""
    /\ field_of last "Rarity" <> "".
Proof.
  destruct (written_row_is_valid camaro no_file camaro_saved)
    as (recs & last & F & H1 & _ & _ & H4 & _).
  - vm_compute. tauto.
  - vm_compute. reflexivity.
  - exists recs, last. split; [exact F|]. split; [exact H1 | exact H4].
Defined.

Lemma written_row_is_trimmed_witness :
  exists recs last,
    CSV_FILE camaro_padded_saved = Some (Table COLUMNS (recs ++ [last]))
    /\ length last = 14
    /\ Forall (fun v => strip v = v) last.
Proof.
  apply (written_row_is_trimmed camaro_padded no_file camaro_padded_saved).
  vm_compute. reflexivity.
Defined.

Lemma save_row_leaves_declared_table_witness :
  exists recs,
    save_row (numbered 1) foreign_file
    = Ok (mkWorld (Some (Table COLUMNS recs)) None)
    /\ rectangular COLUMNS recs = true
    /\ forallb (forallb plain) recs = true
    /\ length recs = 2.
Proof.
  exact (save_row_leaves_declared_table (numbered 1) foreign_file
           eq_refl eq_refl eq_refl eq_refl eq_refl).
Defined.

Lemma save_row_replaces_unreadable_file_witness :
  exists w',
    save_row (numbered 1) garbled_file = Ok w'
    /\ load_catalog w' = stored_frame (numbered 1).
Proof.
  exact (save_row_replaces_unreadable_file (numbered 1) garbled_file
           (or_intror eq_refl) eq_refl eq_refl eq_refl).
Defined.

Lemma to_csv_then_load_witness :
  exists w', to_csv one_row no_file = Ok w' /\ load_catalog w' = one_row.
Proof.
  exact (to_csv_then_load one_row no_file eq_refl eq_refl eq_refl eq_refl).
Defined.

Lemma duplicate_exists_missing_column_witness :
  duplicate_exists no_year "HW01" "Twin Mill" "Mainline" "TH" "" = false.
Proof.
  apply duplicate_exists_missing_column.
  right. right. right. right. vm_compute. intuition discriminate.
Defined.

Lemma duplicate_exists_after_save_witness :
  duplicate_exists (load_catalog camaro_saved)
    "ghc39" "'67 CAMARO" "mainline" "sth" " 2023"
  = duplicate_exists (load_catalog no_file)
      "ghc39" "'67 CAMARO" "mainline" "sth" " 2023"
    || duplicate_exists (stored_frame (entry_row camaro))
         "ghc39" "'67 CAMARO" "mainline" "sth" " 2023".
Proof.
  apply duplicate_exists_after_save; reflexivity.
Defined.

Lemma preview_shows_latest_witness :
  exists latest,
    current_catalog twelve_saved
    = st_dataframe "Showing latest 10 of 12 entries" latest
    /\ pd.len latest = 10.
Proof.
  destruct (preview_shows_latest twelve_saved) as (latest & E & _ & L & _).
  - vm_compute. lia.
  - exists latest. split; [exact E | exact L].
Defined.

Lemma saved_entry_tops_preview_witness :
  exists caption latest,
    current_catalog camaro_saved = st_dataframe caption latest
    /\ nth_error (rows latest) 0 = Some (stored_row (entry_row camaro)).
Proof.
  apply (saved_entry_tops_preview camaro no_file camaro_saved
           eq_refl eq_refl eq_refl).
  vm_compute. reflexivity.
Defined.

(* ===================================================================== *)
(** ** The handler and the catalog it finds *)
(* ===================================================================== *)

Section HandlerAndCatalog.

Import pd.


(** X14. An entry that validation accepts and that the catalog already
    holds, up to case and surrounding white space in Toy #, Name, Series,
    Rarity and Year, is answered with the duplicate warning and is not
    written. *)
Theorem known_entry_is_skipped (f : Form) (w : World) (row : list cell) :
  tabular w = true ->
  missing f = [] ->
  (rarity f = "Exclusive" -> strip (exclusive_desc f) <> "") ->
  In row (rows (load_catalog w)) ->
  field_matches (load_catalog w) row "Toy #" (toy_no f) ->
  field_matches (load_catalog w) row "Name" (name f) ->
  field_matches (load_catalog w) row "Series" (series f) ->
  field_matches (load_catalog w) row "Rarity" (rarity f) ->
  field_matches (load_catalog w) row "Year" (year f) ->
  on_submit f w = (st_warning msg_duplicate, w).
Proof.
  intros T HM HX I M1 M2 M3 M4 M5.
  assert (D : duplicate_exists (load_catalog w)
                (toy_no f) (name f) (series f) (rarity f) (year f) = true).
  { apply duplicate_exists_rows; [now apply loaded_frame_of_strings|].
    exists row. now repeat split. }
  unfold on_submit. rewrite HM, (proj2 (exclusive_check f) HX), D.
  reflexivity.
Qed.


End HandlerAndCatalog.

Lemma known_entry_is_skipped_witness :
  on_submit camaro_padded camaro_saved = (st_warning msg_duplicate, camaro_saved).
Proof.
  apply (known_entry_is_skipped camaro_padded camaro_saved
           (stored_row (entry_row camaro)) eq_refl eq_refl).
  - vm_compute. discriminate.
  - vm_compute. tauto.
  - exists 0, "GHC39". vm_compute. tauto.
  - exists 2, "'67 Camaro". vm_compute. tauto.
  - exists 3, "Mainline". vm_compute. tauto.
  - exists 6, "STH". vm_compute. tauto.
  - exists 5, "2023". vm_compute. tauto.
Defined.

